(** * Catchment assignment, summaries and site scoring of [market_research_tool.py]

    A shallow embedding of the class [MarketResearchTool] and of the
    add-business and bulk-import handlers of [app.py].  Numbers are IEEE-754
    binary64 values (Rocq's primitive floats), as numpy's [float64] columns
    and Python's [float] are, so [NaN], the infinities and the outcome of
    every comparison are the ones the program meets. *)

From Stdlib Require Import ZArith Lia List Bool String.
From Stdlib Require Import Floats DecimalString.
From Stdlib Require Uint63.
From Stdlib Require Import Sorted Permutation.
From stdpp Require Import gmap strings.
Import ListNotations.

Local Open Scope list_scope.
Set Warnings "-inexact-float".

Local Open Scope float_scope.

(** ** Data model *)

(** One row of [sa_data].  The columns the program reads by name are fields;
    every other numeric column of the data set ([population_density],
    [pop_25_54], the percentage columns merged in by [__init__]) is a cell
    of [cells], and a cell absent from a row reads as NaN, as pandas fills
    it. *)
Record Area := mkArea {
  SA1 : string;
  latitude : float;
  longitude : float;
  postcode : float;
  suburb : string;
  total_population : float;
  avg_income : float;
  avg_age : float;
  cells : gmap string float;
  assigned_business : option string;
  distance_to_business : float
}.

(** A business dictionary: [{'name', 'lat', 'lon', 'catchment'}]. *)
Record Business := mkBusiness {
  name : string;
  lat : float;
  lon : float;
  catchment : list string
}.

(** The state of a [MarketResearchTool]: the names of the columns held in
    [cells], the area table and the ordered list of businesses.  The k-d tree
    and the coordinate array built by [__init__] are never read by the
    methods below and are left out. *)
Record MarketResearchTool := mkTool {
  extra_columns : list string;
  sa_data : list Area;
  businesses : list Business
}.

Definition set_assignment (a : Area) (b : option string) (d : float) : Area :=
  {| SA1 := SA1 a; latitude := latitude a; longitude := longitude a;
     postcode := postcode a; suburb := suburb a;
     total_population := total_population a; avg_income := avg_income a;
     avg_age := avg_age a; cells := cells a;
     assigned_business := b; distance_to_business := d |}.

(** [sa_data['assigned_business'] = None; sa_data['distance_to_business'] = np.inf] *)
Definition reset_assignment (a : Area) : Area := set_assignment a None infinity.

(** [__init__]: rows without a latitude or a longitude are dropped, every
    remaining row starts unassigned, and there is no business yet.  The
    optional left merge of the percentage table only adds columns; the frame
    is taken with them. *)
Definition init (columns : list string) (sa_processed_df : list Area)
  : MarketResearchTool :=
  {| extra_columns := columns;
     sa_data :=
       map reset_assignment
         (List.filter
            (fun a => negb (is_nan (latitude a)) && negb (is_nan (longitude a)))
            sa_processed_df);
     businesses := [] |}.

(** ** Exceptions *)

Inductive exn :=
| KeyError (k : string)
| TypeError
| ValueError.

Inductive outcome (A : Type) :=
| Ok (a : A)
| Raise (e : exn).
Arguments Ok {A} a.
Arguments Raise {A} e.

(** ** Catchment assignment *)

(** One step of the scaling loop of BLAS [nrm2] on the state [(scale, ssq)],
    and the norm [scale * sqrt(ssq)] it ends with.  The loop is the one of
    the reference implementation; another BLAS may round the last bit
    otherwise.  What the properties below use of it is that the norm of two
    finite differences is a number, never NaN. *)
Definition nrm2_step (st : float * float) (x : float) : float * float :=
  if x =? 0 then st
  else
    let absxi := abs x in
    if fst st <? absxi
    then (absxi, 1 + snd st * ((fst st / absxi) * (fst st / absxi)))
    else (fst st, snd st + (absxi / fst st) * (absxi / fst st)).

Definition nrm2 (dx dy : float) : float :=
  let st := nrm2_step (nrm2_step (0, 1) dx) dy in
  fst st * sqrt (snd st).

(** [scipy.spatial.distance.euclidean] on two coordinate pairs, in degrees:
    [scipy.linalg.norm] of the difference, which refuses a difference that
    is not finite ([ValueError: array must not contain infs or NaNs]) and
    otherwise calls [nrm2]. *)
Definition euclidean (u v : float * float) : outcome float :=
  let dx := fst u - fst v in
  let dy := snd u - snd v in
  if is_finite dx && is_finite dy then Ok (nrm2 dx dy) else Raise ValueError.

(** [scipy.spatial.distance.cdist] with its default metric, at one row and
    one business: the square root of the sum of the squared differences,
    computed as written and without any check. *)
Definition cdist_euclidean (u v : float * float) : float :=
  sqrt ((fst u - fst v) * (fst u - fst v) + (snd u - snd v) * (snd u - snd v)).

Definition sa_coords (a : Area) : float * float := (latitude a, longitude a).
Definition biz_coords (b : Business) : float * float := (lat b, lon b).

(** The test of the inner loop of [_recalculate_catchments] on the state
    [(min_dist, nearest_business)], once [dist] is known. *)
Definition scan_step (st : float * option string) (n : string) (dist : float)
  : float * option string :=
  if dist <? fst st then (dist, Some n) else st.

(** The inner loop: it stops at the first distance that raises. *)
Fixpoint scan (sa : float * float) (bs : list Business)
  (st : float * option string) : outcome (float * option string) :=
  match bs with
  | [] => Ok st
  | business :: bs' =>
      match euclidean sa (biz_coords business) with
      | Ok dist => scan sa bs' (scan_step st (name business) dist)
      | Raise e => Raise e
      end
  end.

Definition nearest (sa : float * float) (bs : list Business)
  : outcome (float * option string) :=
  scan sa bs (infinity, None).

(** The outer loop over the rows, all reset beforehand: each row receives
    its nearest business and the distance to it; when a distance raises, the
    rows not yet reached stay as they are. *)
Fixpoint assign_rows (bs : list Business) (rows : list Area)
  : list Area * outcome unit :=
  match rows with
  | [] => ([], Ok tt)
  | a :: rest =>
      match nearest (sa_coords a) bs with
      | Ok r =>
          let done := assign_rows bs rest in
          (set_assignment a (snd r) (fst r) :: fst done, snd done)
      | Raise e => (a :: rest, Raise e)
      end
  end.

Definition assigned_to (n : string) (a : Area) : bool :=
  match assigned_business a with
  | Some m => String.eqb m n
  | None => false
  end.

(** [business['catchment'] = sa_data[sa_data['assigned_business'] == business['name']]['SA1'].tolist()] *)
Definition with_catchment (rows : list Area) (b : Business) : Business :=
  {| name := name b; lat := lat b; lon := lon b;
     catchment := map SA1 (List.filter (assigned_to (name b)) rows) |}.

(** [_recalculate_catchments] on the state it mutates: the state it leaves,
    and whether it returned or raised.  When it raises, the rows reached so
    far are assigned, the others are reset, and the catchment lists are the
    old ones. *)
Definition _recalculate_catchments (t : MarketResearchTool)
  : MarketResearchTool * outcome unit :=
  match businesses t with
  | [] =>
      ({| extra_columns := extra_columns t;
          sa_data := map reset_assignment (sa_data t);
          businesses := [] |}, Ok tt)
  | bs =>
      let done := assign_rows bs (map reset_assignment (sa_data t)) in
      match snd done with
      | Ok _ =>
          ({| extra_columns := extra_columns t;
              sa_data := fst done;
              businesses := map (with_catchment (fst done)) bs |}, Ok tt)
      | Raise e =>
          ({| extra_columns := extra_columns t;
              sa_data := fst done;
              businesses := bs |}, Raise e)
      end
  end.

(** [add_business] appends the dictionary, recomputes, and returns the
    dictionary, whose catchment the recomputation has rebuilt in place. *)
Definition add_business (t : MarketResearchTool) (n : string) (la lo : float)
  : MarketResearchTool * outcome Business :=
  let business := {| name := n; lat := la; lon := lo; catchment := [] |} in
  let done :=
    _recalculate_catchments
      {| extra_columns := extra_columns t;
         sa_data := sa_data t;
         businesses := businesses t ++ [business] |} in
  match snd done with
  | Ok _ => (fst done, Ok (with_catchment (sa_data (fst done)) business))
  | Raise e => (fst done, Raise e)
  end.

Definition remove_business (t : MarketResearchTool) (n : string)
  : MarketResearchTool * outcome unit :=
  _recalculate_catchments
    {| extra_columns := extra_columns t;
       sa_data := sa_data t;
       businesses :=
         List.filter (fun b => negb (String.eqb (name b) n)) (businesses t) |}.

(** Registry mutations, and the state left by a sequence of them.  The state
    outlives a mutation that raises: the bulk import of the dashboard
    catches the exception and goes on with the next line. *)
Inductive mutation :=
| Add (n : string) (la lo : float)
| Remove (n : string).

Definition apply_mutation (t : MarketResearchTool) (m : mutation)
  : MarketResearchTool :=
  match m with
  | Add n la lo => fst (add_business t n la lo)
  | Remove n => fst (remove_business t n)
  end.

Definition run (t : MarketResearchTool) (ms : list mutation) : MarketResearchTool :=
  fold_left apply_mutation ms t.

(** ** Column reductions of pandas *)

(** [Series.min], [Series.max], [Series.sum] and [Series.mean] skip NaN; the
    extremum of no value is NaN, the sum of no value is [0] and the mean of no
    value is NaN.  Additions are taken in row order. *)
Definition dropna (xs : list float) : list float :=
  List.filter (fun x => negb (is_nan x)) xs.

Definition fmin (a b : float) : float := if b <? a then b else a.
Definition fmax (a b : float) : float := if a <? b then b else a.

Definition reduce (f : float -> float -> float) (xs : list float) : float :=
  match xs with
  | [] => nan
  | x :: r => fold_left f r x
  end.

Definition series_min (xs : list float) : float := reduce fmin (dropna xs).
Definition series_max (xs : list float) : float := reduce fmax (dropna xs).
Definition series_sum (xs : list float) : float := fold_left add (dropna xs) 0.

Definition count_float (n : nat) : float :=
  of_uint63 (Uint63.of_Z (Z.of_nat n)).

Definition series_mean (xs : list float) : float :=
  match length (dropna xs) with
  | O => nan
  | n => series_sum xs / count_float n
  end.

(** ** Catchment summary *)

Record Summary := mkSummary {
  s_total_population : float;
  s_num_areas : nat;
  s_avg_income : float;
  s_avg_age : float;
  s_avg_distance : float;
  s_max_distance : float
}.

(** An absent dictionary argument holds no key. *)
Definition dict_or_empty {V} (d : option (gmap string V)) : gmap string V :=
  match d with
  | Some m => m
  | None => ∅
  end.

(** The rows selected by [business_name]: [if business_name:] is false for
    [None] and for the empty string, and both select every area. *)
Definition select_catchment (t : MarketResearchTool) (business_name : option string)
  : list Area :=
  match business_name with
  | Some n =>
      if String.eqb n "" then sa_data t
      else List.filter (assigned_to n) (sa_data t)
  | None => sa_data t
  end.

(** The income filters; [min_age] and [max_age] are accepted and ignored.
    An empty dictionary is falsy and holds no key, so the outer test of the
    source changes nothing. *)
Definition apply_filters (demographic_filters : option (gmap string float))
  (catchment_data : list Area) : list Area :=
  let filters := dict_or_empty demographic_filters in
  let after_min :=
    match filters !! "min_income"%string with
    | Some v => List.filter (fun a => v <=? avg_income a) catchment_data
    | None => catchment_data
    end in
  match filters !! "max_income"%string with
  | Some v => List.filter (fun a => avg_income a <=? v) after_min
  | None => after_min
  end.

Definition summarize (catchment_data : list Area) : Summary :=
  {| s_total_population := series_sum (map total_population catchment_data);
     s_num_areas := length catchment_data;
     s_avg_income := series_mean (map avg_income catchment_data);
     s_avg_age := series_mean (map avg_age catchment_data);
     s_avg_distance := series_mean (map distance_to_business catchment_data);
     s_max_distance := series_max (map distance_to_business catchment_data) |}.

Definition get_catchment_summary (t : MarketResearchTool)
  (business_name : option string)
  (demographic_filters : option (gmap string float)) : Summary :=
  summarize (apply_filters demographic_filters (select_catchment t business_name)).

(** ** Site selection *)

(** A row of [candidates]: an area with its [score] column. *)
Record Candidate := mkCandidate {
  row : Area;
  score : float
}.

Definition cell (c : string) (a : Area) : float :=
  match cells a !! c with
  | Some x => x
  | None => nan
  end.

Definition has_column (t : MarketResearchTool) (c : string) : bool :=
  existsb (String.eqb c) (extra_columns t).

(** [candidates[c]] for a column name [c]: a numeric column, a column of
    strings (on which the subtraction of the normalization raises), or no
    column at all. *)
Inductive column :=
| Numeric (f : Candidate -> float)
| Text.

Definition lookup_column (t : MarketResearchTool) (c : string) : option column :=
  if String.eqb c "score" then Some (Numeric score)
  else if String.eqb c "latitude" then Some (Numeric (fun k => latitude (row k)))
  else if String.eqb c "longitude" then Some (Numeric (fun k => longitude (row k)))
  else if String.eqb c "postcode" then Some (Numeric (fun k => postcode (row k)))
  else if String.eqb c "total_population"
    then Some (Numeric (fun k => total_population (row k)))
  else if String.eqb c "avg_income" then Some (Numeric (fun k => avg_income (row k)))
  else if String.eqb c "avg_age" then Some (Numeric (fun k => avg_age (row k)))
  else if String.eqb c "distance_to_business"
    then Some (Numeric (fun k => distance_to_business (row k)))
  else if String.eqb c "SA1" then Some Text
  else if String.eqb c "suburb" then Some Text
  else if String.eqb c "assigned_business" then Some Text
  else if has_column t c then Some (Numeric (fun k => cell c (row k)))
  else None.

(** [candidates = candidates[distances >= min_distance_from_existing]] for
    one business. *)
Definition exclude_near (r : float) (candidates : list Area) (business : Business)
  : list Area :=
  List.filter (fun a => r <=? cdist_euclidean (sa_coords a) (biz_coords business))
    candidates.

(** The candidate set after the exclusion loop. *)
Definition exclusion_filter (t : MarketResearchTool) (r : float) : list Area :=
  match businesses t with
  | [] => sa_data t
  | bs => if 0 <? r then fold_left (exclude_near r) bs (sa_data t) else sa_data t
  end.

(** [(col - col.min()) / (col.max() - col.min())] at one value of the
    column: no test on the denominator. *)
Definition normalized (column : list float) (x : float) : float :=
  (x - series_min column) / (series_max column - series_min column).

Definition normalize (xs : list float) : list float := map (normalized xs) xs.

(** [candidates['score'] += normalized * w] *)
Definition add_to_score (w : float) (normalized : list float) (cs : list Candidate)
  : list Candidate :=
  zip_with (fun c n => {| row := row c; score := score c + n * w |}) cs normalized.

Definition add_signal (w : float) (f : Candidate -> float) (cs : list Candidate)
  : list Candidate :=
  add_to_score w (normalize (map f cs)) cs.

Definition density (k : Candidate) : float := cell "population_density" (row k).
Definition distance (k : Candidate) : float := distance_to_business (row k).

(** The three scoring stages, in the order of the source. *)
Definition population_stage (t : MarketResearchTool) (cs : list Candidate)
  : list Candidate :=
  if has_column t "population_density" then add_signal 0.4 density cs else cs.

Definition demographic_stage (t : MarketResearchTool)
  (target_demographics : option (gmap string string)) (cs : list Candidate)
  : outcome (list Candidate) :=
  match dict_or_empty target_demographics !! "age_group"%string with
  | Some age_col =>
      match lookup_column t age_col with
      | Some (Numeric f) => Ok (add_signal 0.4 f cs)
      | Some Text => Raise TypeError
      | None => Ok cs
      end
  | None => Ok cs
  end.

Definition distance_stage (t : MarketResearchTool) (cs : list Candidate)
  : list Candidate :=
  match businesses t with
  | [] => cs
  | _ => add_signal 0.2 distance cs
  end.

Definition score_candidates (t : MarketResearchTool)
  (target_demographics : option (gmap string string)) (candidates : list Area)
  : outcome (list Candidate) :=
  let cs := map (fun a => {| row := a; score := 0 |}) candidates in
  match demographic_stage t target_demographics (population_stage t cs) with
  | Ok cs' => Ok (distance_stage t cs')
  | Raise e => Raise e
  end.

(** [DataFrame.nlargest(n, 'score')]: the [n] rows of highest score in
    decreasing order, rows of equal score in their original order, rows
    without a score last. *)
Fixpoint insert_desc (c : Candidate) (l : list Candidate) : list Candidate :=
  match l with
  | [] => [c]
  | d :: l' => if score d <? score c then c :: d :: l' else d :: insert_desc c l'
  end.

Definition nlargest (n : Z) (cs : list Candidate) : list Candidate :=
  let scored := List.filter (fun c => negb (is_nan (score c))) cs in
  let unscored := List.filter (fun c => is_nan (score c)) cs in
  firstn (Z.to_nat n) (fold_left (fun acc c => insert_desc c acc) scored [] ++ unscored).

Record Suggestion := mkSuggestion {
  r_SA1 : string;
  r_latitude : float;
  r_longitude : float;
  r_postcode : float;
  r_suburb : string;
  r_score : float;
  r_population : float;
  r_population_density : float
}.

Definition suggestion (c : Candidate) : Suggestion :=
  {| r_SA1 := SA1 (row c); r_latitude := latitude (row c);
     r_longitude := longitude (row c); r_postcode := postcode (row c);
     r_suburb := suburb (row c); r_score := score c;
     r_population := total_population (row c);
     r_population_density := density c |}.

Definition find_optimal_location (t : MarketResearchTool) (num_locations : Z)
  (target_demographics : option (gmap string string))
  (min_distance_from_existing : float) : outcome (list Suggestion) :=
  match exclusion_filter t min_distance_from_existing with
  | [] => Ok []
  | candidates =>
      match score_candidates t target_demographics candidates with
      | Raise e => Raise e
      | Ok cs =>
          match nlargest num_locations cs with
          | [] => Ok []
          | top =>
              if has_column t "population_density" then Ok (map suggestion top)
              else Raise (KeyError "population_density")
          end
      end
  end.

(** ** The add-business handler of the dashboard *)

Inductive message :=
| success (text : string)
| error (text : string).

(** [if st.button("Add Business"): if new_name: ... else: st.error(...)];
    an exception of [add_business] leaves the handler before the message. *)
Definition add_business_button (t : MarketResearchTool) (new_name : string)
  (new_lat new_lon : float) : MarketResearchTool * outcome message :=
  if String.eqb new_name "" then (t, Ok (error "Please enter a business name"))
  else
    let done := add_business t new_name new_lat new_lon in
    match snd done with
    | Ok _ => (fst done, Ok (success ("Added " ++ new_name ++ "!")))
    | Raise e => (fst done, Raise e)
    end.

(** ** The catchment map *)

(** The arguments of a [go.Scattermapbox] trace, as [visualize_catchments]
    passes them. *)
Record Marker := mkMarker {
  m_size : Z;
  m_color : string;
  m_opacity : option float;
  m_symbol : option string
}.

Record Scattermapbox := mkScattermapbox {
  tr_lat : list float;
  tr_lon : list float;
  tr_mode : string;
  tr_marker : Marker;
  tr_name : string;
  tr_text : list string;
  tr_textposition : option string;
  tr_hovertemplate : string;
  tr_customdata : option (list (float * float))
}.

(** The arguments of [update_layout]. *)
Record Layout := mkLayout {
  mapbox_style : string;
  mapbox_center : float * float;
  mapbox_zoom : Z;
  height : Z;
  title : string;
  showlegend : bool
}.

Record Figure := mkFigure {
  data : list Scattermapbox;
  layout : Layout
}.

(** [px.colors.qualitative.Set1]: the nine colours of the palette. *)
Definition Set1 : list string :=
  ["rgb(228,26,28)"; "rgb(55,126,184)"; "rgb(77,175,74)"; "rgb(152,78,163)";
   "rgb(255,127,0)"; "rgb(255,255,51)"; "rgb(166,86,40)"; "rgb(247,129,191)";
   "rgb(153,153,153)"]%string.

(** [d[k] = v] on a dictionary kept in insertion order: a key already there
    keeps its place and takes the new value. *)
Fixpoint dict_set (k v : string) (d : list (string * string))
  : list (string * string) :=
  match d with
  | [] => [(k, v)]
  | (k', v') :: d' =>
      if String.eqb k' k then (k', v) :: d' else (k', v') :: dict_set k v d'
  end.

(** [dict(pairs)] *)
Definition dict (pairs : list (string * string)) : list (string * string) :=
  fold_left (fun d kv => dict_set (fst kv) (snd kv) d) pairs [].

(** [color_map = dict(zip(business_names, Set1[:len(business_names)]))] *)
Definition color_map (t : MarketResearchTool) : list (string * string) :=
  let business_names := map name (businesses t) in
  let colors := firstn (length business_names) Set1 in
  dict (combine business_names colors).

Definition catchment_trace (catchment_data : list Area) (business_name color : string)
  : Scattermapbox :=
  {| tr_lat := map latitude catchment_data;
     tr_lon := map longitude catchment_data;
     tr_mode := "markers";
     tr_marker := {| m_size := 8; m_color := color; m_opacity := Some 0.6;
                     m_symbol := None |};
     tr_name := business_name ++ " Catchment";
     tr_text := map SA1 catchment_data;
     tr_textposition := None;
     tr_hovertemplate :=
       "<b>%{text}</b><br>" ++ "Population: %{customdata[0]:.0f}<br>" ++
       "Distance: %{customdata[1]:.3f}°<br>" ++ "<extra></extra>";
     tr_customdata :=
       Some (map (fun a => (total_population a, distance_to_business a))
               catchment_data) |}.

(** The loop over [color_map.items()]: a trace for each name that has areas
    assigned. *)
Definition catchment_traces (t : MarketResearchTool) : list Scattermapbox :=
  flat_map
    (fun kv =>
       let catchment_data := List.filter (assigned_to (fst kv)) (sa_data t) in
       match catchment_data with
       | [] => []
       | _ => [catchment_trace catchment_data (fst kv) (snd kv)]
       end)
    (color_map t).

Definition business_trace (t : MarketResearchTool) : Scattermapbox :=
  {| tr_lat := map lat (businesses t);
     tr_lon := map lon (businesses t);
     tr_mode := "markers+text";
     tr_marker := {| m_size := 20; m_color := "red"; m_opacity := None;
                     m_symbol := Some "star"%string |};
     tr_name := "Business Locations";
     tr_text := map name (businesses t);
     tr_textposition := Some "top center"%string;
     tr_hovertemplate := "<b>%{text}</b><br>Lat: %{lat}<br>Lon: %{lon}<extra></extra>";
     tr_customdata := None |}.

Definition visualize_catchments (t : MarketResearchTool) : option Figure :=
  match businesses t with
  | [] => None
  | _ =>
      Some {| data := catchment_traces t ++ [business_trace t];
              layout := {| mapbox_style := "open-street-map";
                           mapbox_center := (-37.8, 145);
                           mapbox_zoom := 8;
                           height := 700;
                           title := "Business Catchment Areas";
                           showlegend := true |} |}
  end.

(** ** The bulk import of the dashboard *)

(** What the dashboard shows after a handler: [st.success], [st.warning] or
    [st.error], each with its text. *)
Inductive notice :=
| st_success (text : string)
| st_warning (text : string)
| st_error (text : string).

(** [f"{n}"] for a count. *)
Definition show_count (n : nat) : string :=
  NilEmpty.string_of_uint (Nat.to_uint n).

(** The separator ['\n']. *)
Definition newline : string := String (Ascii.ascii_of_nat 10) EmptyString.

Section BulkImport.

(** The methods [str.strip()] and [str.split(sep)] and the conversion
    [float(s)], which raises on a text that is no number. *)
Variable strip : string -> string.
Variable split : string -> string -> list string.
Variable py_float : string -> outcome float.

(** One turn of the loop over the lines, on the tool and the two counters:
    any exception of the line, the one of [add_business] included, is caught
    and counted. *)
Definition import_line (st : MarketResearchTool * nat * nat) (line : string)
  : MarketResearchTool * nat * nat :=
  let '(t, success_count, error_count) := st in
  match map strip (split line ",") with
  | [n; la; lo] =>
      match py_float la with
      | Raise _ => (t, success_count, S error_count)
      | Ok new_lat =>
          match py_float lo with
          | Raise _ => (t, success_count, S error_count)
          | Ok new_lon =>
              let done := add_business t n new_lat new_lon in
              match snd done with
              | Ok _ => (fst done, S success_count, error_count)
              | Raise _ => (fst done, success_count, S error_count)
              end
          end
      end
  | _ => (t, success_count, S error_count)
  end.

(** [if st.button("Import Locations"): ...] *)
Definition import_locations (t : MarketResearchTool) (bulk_input : string)
  : MarketResearchTool * list notice :=
  if String.eqb (strip bulk_input) "" then (t, [st_error "Please paste location data"])
  else
    let lines := split (strip bulk_input) newline in
    let '(t', success_count, error_count) := fold_left import_line lines (t, 0%nat, 0%nat) in
    (t',
     (if (0 <? success_count)%nat
      then [st_success ("Imported " ++ show_count success_count ++ " location(s)!")]
      else []) ++
     (if (0 <? error_count)%nat
      then [st_warning ("Failed to import " ++ show_count error_count ++
                        " line(s). Check format.")]
      else [])).

(** The business that a line asks for, if the line has three parts of which
    the last two are numbers. *)
Definition parsed_line (line : string) : option (string * float * float) :=
  match map strip (split line ",") with
  | [n; la; lo] =>
      match py_float la, py_float lo with
      | Ok new_lat, Ok new_lon => Some (n, new_lat, new_lon)
      | _, _ => None
      end
  | _ => None
  end.

Definition parsed_lines (lines : list string) : list (string * float * float) :=
  omap parsed_line lines.

End BulkImport.

(** The mutation that adds an entry. *)
Definition add_entry (e : string * float * float) : mutation :=
  Add (fst (fst e)) (snd (fst e)) (snd e).

(** ** Derived notions *)

(** The inner loop when every distance is defined, [dist] giving them. *)
Definition pure_scan (dist : Business -> float) (bs : list Business)
  (st : float * option string) : float * option string :=
  fold_left (fun st b => scan_step st (name b) (dist b)) bs st.

(** The distance from [sa] to a business, when [euclidean] returns one. *)
Definition dist_of (sa : float * float) (b : Business) : float :=
  match euclidean sa (biz_coords b) with
  | Ok d => d
  | Raise _ => nan
  end.

(** A row is unassigned when it is as the reset leaves it, and fresh when it
    carries what the scan computes for it from the businesses [bs]. *)
Definition unassigned (a : Area) : Prop :=
  assigned_business a = None /\ distance_to_business a = infinity.

Definition fresh_row (bs : list Business) (a : Area) : Prop :=
  exists r, nearest (sa_coords a) bs = Ok r /\
            assigned_business a = snd r /\ distance_to_business a = fst r.

(** A state is computable when the distance of every area to every business
    is defined, and consistent when each row is unassigned or fresh, and
    fresh if the state is computable. *)
Definition computable (t : MarketResearchTool) : Prop :=
  forall a g, In a (sa_data t) -> In g (businesses t) ->
    exists d, euclidean (sa_coords a) (biz_coords g) = Ok d.

Definition consistent (t : MarketResearchTool) : Prop :=
  (forall a, In a (sa_data t) -> unassigned a \/ fresh_row (businesses t) a) /\
  (computable t -> forall a, In a (sa_data t) -> fresh_row (businesses t) a).

(** The Registry as a list of [(name, lat, lon)] entries, in insertion
    order. *)
Definition entry (b : Business) : string * float * float := (name b, lat b, lon b).
Definition registry (t : MarketResearchTool) : list (string * float * float) :=
  map entry (businesses t).

Definition in_range (la lo : float) : bool :=
  (-90 <=? la) && (la <=? 90) && (-180 <=? lo) && (lo <=? 180).


(** The candidates carrying the scores [s]. *)
Definition with_score (s : Area -> float) (candidates : list Area) : list Candidate :=
  map (fun a => {| row := a; score := s a |}) candidates.

(** The summary of no row. *)
Definition empty_summary : Summary :=
  {| s_total_population := 0; s_num_areas := 0; s_avg_income := nan;
     s_avg_age := nan; s_avg_distance := nan; s_max_distance := nan |}.


(** Whether a row names a business. *)
Definition is_assigned (a : Area) : bool :=
  match assigned_business a with
  | Some _ => true
  | None => false
  end.

(** The candidates in the order of [nlargest]: by decreasing score, those
    without a score last. *)
Definition ranked (cs : list Candidate) : list Candidate :=
  fold_left (fun acc c => insert_desc c acc)
    (List.filter (fun c => negb (is_nan (score c))) cs) []
  ++ List.filter (fun c => is_nan (score c)) cs.

(** No candidate is strictly better scored than one listed before it. *)
Definition not_below (x y : Candidate) : Prop := (score x <? score y) = false.

(** The test that a row passes to stay in a filtered summary. *)
Definition passes (demographic_filters : option (gmap string float)) (a : Area)
  : bool :=
  match dict_or_empty demographic_filters !! "min_income"%string with
  | Some v => v <=? avg_income a
  | None => true
  end &&
  match dict_or_empty demographic_filters !! "max_income"%string with
  | Some v => avg_income a <=? v
  | None => true
  end.

(** ** The score in the words of the specification *)

(** The score as the specification words it, signal after signal, starting
    from 0: each applicable signal adds its weight times its normalized
    value, and the weights are the constants 0.4, 0.4 and 0.2 whichever
    signals apply. *)
Definition density_score (t : MarketResearchTool) (candidates : list Area)
  (a : Area) : float :=
  if has_column t "population_density"
  then 0 + 0.4 * normalized (map (cell "population_density") candidates)
                   (cell "population_density" a)
  else 0.

Definition demographic_score (t : MarketResearchTool)
  (target_demographics : option (gmap string string)) (candidates : list Area)
  (a : Area) : float :=
  let s := density_score t candidates in
  match dict_or_empty target_demographics !! "age_group"%string with
  | Some age_col =>
      match lookup_column t age_col with
      | Some (Numeric f) =>
          s a + 0.4 * normalized (map f (with_score s candidates))
                        (f {| row := a; score := s a |})
      | _ => s a
      end
  | None => s a
  end.

Definition weighted_score (t : MarketResearchTool)
  (target_demographics : option (gmap string string)) (candidates : list Area)
  (a : Area) : float :=
  let s := demographic_score t target_demographics candidates in
  match businesses t with
  | [] => s a
  | _ => s a + 0.2 * normalized (map distance_to_business candidates)
                       (distance_to_business a)
  end.

(** ** Four properties in the words of the specification *)


(** The exclusion rule as the specification words it: the areas removed are
    exactly those strictly closer than the radius to some facility. *)
Definition exclusion_claim (t : MarketResearchTool) (r : float) : Prop :=
  forall a, In a (sa_data t) ->
    ~ In a (exclusion_filter t r) <->
    exists g, In g (businesses t) /\
      (cdist_euclidean (sa_coords a) (biz_coords g) <? r) = true.


(** The unknown-name rule as the claim words it: a name borne by no
    facility yields the summary of no row. *)
Definition unknown_name_claim (t : MarketResearchTool) (n : string) : Prop :=
  (forall g, In g (businesses t) -> name g <> n) ->
  get_catchment_summary t (Some n) None = empty_summary.

(** ** Sample data *)

Definition area_at (code : string) (la lo : float) : Area :=
  {| SA1 := code; latitude := la; longitude := lo; postcode := 3000;
     suburb := "Melbourne"; total_population := 400; avg_income := 55000;
     avg_age := 38; cells := ∅; assigned_business := None;
     distance_to_business := infinity |}.

Definition facility (n : string) (la lo : float) : Business :=
  {| name := n; lat := la; lon := lo; catchment := [] |}.

(** The row [a] with another average income. *)
Definition with_income (a : Area) (income : float) : Area :=
  {| SA1 := SA1 a; latitude := latitude a; longitude := longitude a;
     postcode := postcode a; suburb := suburb a;
     total_population := total_population a; avg_income := income;
     avg_age := avg_age a; cells := cells a;
     assigned_business := assigned_business a;
     distance_to_business := distance_to_business a |}.

(** Three areas with a density and a share of people aged 25 to 54, and one
    facility next to the first. *)
Definition census_area (code : string) (la lo density_value share : float) : Area :=
  {| SA1 := code; latitude := la; longitude := lo; postcode := 3000;
     suburb := "Melbourne"; total_population := 400; avg_income := 55000;
     avg_age := 38;
     cells := {[ "population_density"%string := density_value;
                 "pop_25_54"%string := share ]};
     assigned_business := None; distance_to_business := infinity |}.

(** One area at the origin and two facilities, both five degrees away. *)
Definition tie_tool : MarketResearchTool :=
  {| extra_columns := []; sa_data := [area_at "A0" 0 0];
     businesses := [facility "F1" 3 4; facility "F2" 4 3] |}.



(** A facility imported with NaN coordinates: the recomputation raises and
    the facility stays in the Registry. *)
Definition nan_tool : MarketResearchTool :=
  run (init ["population_density"%string] [area_at "A0" 0 0]) [Add "N" nan nan].

(** Scenarios A to C of the specification: two areas, [F1] added, [F2]
    added, [F1] removed. *)
Definition scenario_tool : MarketResearchTool :=
  run (init [] [area_at "A1" (-37.8) 145.0; area_at "A2" (-37.9) 145.0])
    [Add "F1" (-37.8) 145.0; Add "F2" (-37.9) 145.0; Remove "F1"].

Definition scenario_row : Area :=
  set_assignment (area_at "A2" (-37.9) 145.0) (Some "F2"%string) 0.

(** A facility at the origin; areas at 0.049, 0.05 and 0.3 degrees. *)
Definition radius_tool : MarketResearchTool :=
  run (init ["population_density"%string]
         [area_at "near" 0 0.049; area_at "edge" 0 0.05; area_at "far" 0 0.3])
    [Add "F" 0 0].

Definition far_row : Area :=
  set_assignment (area_at "far" 0 0.3) (Some "F"%string) 0.3.

Definition census_rows : list Area :=
  [census_area "S1" 0 0.1 1000 40; census_area "S2" 0 0.2 3000 60;
   census_area "S3" 0 0.4 2000 50].

Definition census_tool : MarketResearchTool :=
  run (init ["population_density"; "pop_25_54"]%string census_rows) [Add "F" 0 0].

Definition age_25_54 : option (gmap string string) :=
  Some {[ "age_group"%string := "pop_25_54"%string ]}.


Definition income_above (v : float) : option (gmap string float) :=
  Some {[ "min_income"%string := v ]}.

(** An area without income data next to one with. *)
Definition no_income_area : Area :=
  {| SA1 := "S9"; latitude := 0; longitude := 0.3; postcode := 3000;
     suburb := "Melbourne"; total_population := 0; avg_income := nan;
     avg_age := nan; cells := ∅; assigned_business := None;
     distance_to_business := infinity |}.

Definition income_tool : MarketResearchTool :=
  init [] [area_at "S8" 0 0.1; no_income_area].

(** One area and ten businesses, of which the last is the nearest. *)
Definition ten_tool : MarketResearchTool :=
  run (init [] [area_at "A9" 0 9])
    [Add "B0" 0 0; Add "B1" 0 1; Add "B2" 0 2; Add "B3" 0 3; Add "B4" 0 4;
     Add "B5" 0 5; Add "B6" 0 6; Add "B7" 0 7; Add "B8" 0 8; Add "B9" 0 9].

Definition ten_row : Area :=
  set_assignment (area_at "A9" 0 9) (Some "B9"%string) 0.

(** A pasted text of three lines, with [split] and [strip] as they act on
    ASCII text and [float] as it reads the numbers of the text. *)
Fixpoint split_at (c : Ascii.ascii) (s : string) : list string :=
  match s with
  | EmptyString => [EmptyString]
  | String x s' =>
      if Ascii.eqb x c then EmptyString :: split_at c s'
      else match split_at c s' with
           | [] => [String x EmptyString]
           | part :: parts => String x part :: parts
           end
  end.

Definition sample_split (s sep : string) : list string :=
  match sep with
  | String c EmptyString => split_at c s
  | _ => [s]
  end.

Definition is_space (c : Ascii.ascii) : bool :=
  let n := Ascii.nat_of_ascii c in
  ((9 <=? n)%nat && (n <=? 13)%nat) || (n =? 32)%nat.

Fixpoint lstrip (s : string) : string :=
  match s with
  | String c s' => if is_space c then lstrip s' else s
  | EmptyString => EmptyString
  end.

Definition reverse (s : string) : string :=
  string_of_list_ascii (rev (list_ascii_of_string s)).

Definition sample_strip (s : string) : string :=
  reverse (lstrip (reverse (lstrip s))).

Definition sample_float (s : string) : outcome float :=
  if String.eqb s "nan" then Ok nan
  else if String.eqb s "-37.8" then Ok (-37.8)
  else if String.eqb s "145.0" then Ok 145.0
  else Raise ValueError.

Definition pasted : string :=
  "F1, -37.8, 145.0" ++ newline ++ "N,nan,nan" ++ newline ++ "Depot;-37.8;145.0" ++ newline.

(** * Properties *)

(** ** The order of binary64 values *)

Module F64.

Local Open Scope Z_scope.

(** A non-NaN value is ranked by a triple of integers compared
    lexicographically: the class, then the exponent, then the mantissa
    (both negated for negative values). *)
Definition key (x : spec_float) : option (Z * Z * Z) :=
  match x with
  | S754_nan => None
  | S754_infinity true => Some (-2, 0, 0)
  | S754_infinity false => Some (2, 0, 0)
  | S754_zero _ => Some (0, 0, 0)
  | S754_finite true m e => Some (-1, - e, Z.neg m)
  | S754_finite false m e => Some (1, e, Z.pos m)
  end.

Definition lex3 (a b : Z * Z * Z) : comparison :=
  let '(a1, a2, a3) := a in
  let '(b1, b2, b3) := b in
  match a1 ?= b1 with
  | Eq => match a2 ?= b2 with
          | Eq => a3 ?= b3
          | c => c
          end
  | c => c
  end.

Definition key_compare (x y : spec_float) : option comparison :=
  match key x, key y with
  | Some a, Some b => Some (lex3 a b)
  | _, _ => None
  end.

(** The rank of a primitive float: the comparisons are read through it. *)
Definition fkey (x : float) : option (Z * Z * Z) := key (Prim2SF x).


(** The sign classes that the arithmetic of a norm stays in. *)
Definition nonneg (x : spec_float) : bool :=
  match x with
  | S754_zero _ | S754_finite false _ _ | S754_infinity false => true
  | _ => false
  end.

Definition positive_finite (x : spec_float) : bool :=
  match x with
  | S754_finite false _ _ => true
  | _ => false
  end.

(** The classes of a primitive float: nonnegative (a zero, a positive finite
    value or [+infinity]) and positive finite. *)
Definition nonnegative (x : float) : Prop := nonneg (Prim2SF x) = true.
Definition positive (x : float) : Prop := positive_finite (Prim2SF x) = true.

Lemma SFcompare_key x y : SFcompare x y = key_compare x y.
Proof.
  unfold key_compare.
  destruct x as [sx|sx| |sx mx ex], y as [sy|sy| |sy my ey];
    try destruct sx; try destruct sy; cbn; try reflexivity.
  - rewrite Z.compare_opp, (Z.compare_antisym ex ey).
    destruct (ex ?= ey); reflexivity.
Qed.

Lemma lex3_refl a : lex3 a a = Eq.
Proof. destruct a as [[a1 a2] a3]; cbn. now rewrite !Z.compare_refl. Qed.

Lemma lex3_antisym a b : lex3 b a = CompOpp (lex3 a b).
Proof.
  destruct a as [[a1 a2] a3], b as [[b1 b2] b3]; cbn.
  rewrite (Z.compare_antisym a1 b1), (Z.compare_antisym a2 b2),
    (Z.compare_antisym a3 b3).
  destruct (a1 ?= b1), (a2 ?= b2), (a3 ?= b3); reflexivity.
Qed.

(** [lex3] is the comparison of a linear order: it is decided by the three
    integer comparisons, which [lia] understands once they are reflected. *)
Ltac lex3_cases :=
  repeat match goal with
  | p : (Z * Z * Z)%type |- _ => destruct p as [[? ?] ?]
  end;
  cbn in *;
  repeat match goal with
  | H : context [?x ?= ?y] |- _ =>
      let E := fresh "E" in
      destruct (Z.compare_spec x y) as [E|E|E]; try discriminate
  | |- context [?x ?= ?y] =>
      let E := fresh "E" in
      destruct (Z.compare_spec x y) as [E|E|E]; try discriminate
  end;
  try reflexivity; try congruence; try lia; try (exfalso; lia).

Lemma ltb_key x y :
  (x <? y)%float =
  match fkey x, fkey y with
  | Some a, Some b => match lex3 a b with Lt => true | _ => false end
  | _, _ => false
  end.
Proof.
  rewrite FloatAxioms.ltb_spec. unfold SFltb. rewrite SFcompare_key.
  unfold key_compare, fkey.
  destruct (key (Prim2SF x)), (key (Prim2SF y)); reflexivity.
Qed.

Lemma leb_key x y :
  (x <=? y)%float =
  match fkey x, fkey y with
  | Some a, Some b => match lex3 a b with Gt => false | _ => true end
  | _, _ => false
  end.
Proof.
  rewrite FloatAxioms.leb_spec. unfold SFleb. rewrite SFcompare_key.
  unfold key_compare, fkey.
  destruct (key (Prim2SF x)), (key (Prim2SF y)); reflexivity.
Qed.

Lemma eqb_key x y :
  (x =? y)%float =
  match fkey x, fkey y with
  | Some a, Some b => match lex3 a b with Eq => true | _ => false end
  | _, _ => false
  end.
Proof.
  rewrite FloatAxioms.eqb_spec. unfold SFeqb. rewrite SFcompare_key.
  unfold key_compare, fkey.
  destruct (key (Prim2SF x)), (key (Prim2SF y)); reflexivity.
Qed.

Lemma is_nan_key x :
  is_nan x = match fkey x with Some _ => false | None => true end.
Proof.
  unfold is_nan. rewrite eqb_key.
  destruct (fkey x) as [a|]; [|reflexivity].
  now rewrite lex3_refl.
Qed.

(** Turns every comparison of the goal and of the context into a fact about
    the keys of its operands. *)
Ltac by_keys :=
  rewrite ?ltb_key, ?leb_key, ?eqb_key, ?is_nan_key in *;
  repeat match goal with
  | H : context [fkey ?x] |- _ => destruct (fkey x)
  | |- context [fkey ?x] => destruct (fkey x)
  end;
  try discriminate; try reflexivity.

Lemma ltb_trans x y z :
  (x <? y)%float = true -> (y <? z)%float = true -> (x <? z)%float = true.
Proof. intros H1 H2. by_keys. lex3_cases. Qed.

Lemma ltb_leb_trans x y z :
  (x <? y)%float = true -> (y <=? z)%float = true -> (x <=? z)%float = true.
Proof. intros H1 H2. by_keys. lex3_cases. Qed.

Lemma leb_ltb_trans x y z :
  (x <=? y)%float = true -> (y <? z)%float = true -> (x <? z)%float = true.
Proof. intros H1 H2. by_keys. lex3_cases. Qed.

Lemma leb_trans x y z :
  (x <=? y)%float = true -> (y <=? z)%float = true -> (x <=? z)%float = true.
Proof. intros H1 H2. by_keys. lex3_cases. Qed.

Lemma ltb_leb x y : (x <? y)%float = true -> (x <=? y)%float = true.
Proof. intros H. by_keys. lex3_cases. Qed.

Lemma ltb_irrefl x : (x <? x)%float = false.
Proof. by_keys. now rewrite lex3_refl. Qed.

Lemma leb_refl x : is_nan x = false -> (x <=? x)%float = true.
Proof. intros H. by_keys. now rewrite lex3_refl. Qed.

(** Two numbers are always comparable: only NaN escapes the order. *)
Lemma leb_total x y :
  is_nan x = false -> is_nan y = false ->
  (x <? y)%float = false -> (y <=? x)%float = true.
Proof. intros Hx Hy H. by_keys. lex3_cases. Qed.

Lemma leb_not_ltb x y : (x <=? y)%float = true -> (y <? x)%float = false.
Proof. intros H. by_keys. lex3_cases. Qed.

Lemma ltb_not_leb x y : (x <? y)%float = true -> (y <=? x)%float = false.
Proof. intros H. by_keys. lex3_cases. Qed.

Lemma ltb_not_eqb x y : (x <? y)%float = true -> (x =? y)%float = false.
Proof. intros H. by_keys. lex3_cases. Qed.


Lemma eqb_sym x y : (x =? y)%float = (y =? x)%float.
Proof. by_keys. lex3_cases. Qed.


Lemma eqb_numbers x y :
  (x =? y)%float = true -> is_nan x = false /\ is_nan y = false.
Proof. intros H. by_keys. split; reflexivity. Qed.

Lemma ltb_numbers x y :
  (x <? y)%float = true -> is_nan x = false /\ is_nan y = false.
Proof. intros H. by_keys. split; reflexivity. Qed.

Lemma leb_numbers x y :
  (x <=? y)%float = true -> is_nan x = false /\ is_nan y = false.
Proof. intros H. by_keys. split; reflexivity. Qed.

Lemma ltb_nan_l x y : is_nan x = true -> (x <? y)%float = false.
Proof. intros H. by_keys. Qed.

Lemma ltb_nan_r x y : is_nan y = true -> (x <? y)%float = false.
Proof. intros H. by_keys. Qed.

Lemma leb_nan_r x y : is_nan y = true -> (x <=? y)%float = false.
Proof. intros H. by_keys. Qed.

Lemma leb_nan_l x y : is_nan x = true -> (x <=? y)%float = false.
Proof. intros H. by_keys. Qed.

(** Failing [r <= d] for a number [r] means that [d] is strictly below [r],
    or that [d] is not a number. *)
Lemma leb_false_iff r d :
  is_nan r = false ->
  (r <=? d)%float = false <-> (d <? r)%float = true \/ is_nan d = true.
Proof.
  intros Hr. split.
  - intros H. destruct (is_nan d) eqn:Hd; [now right|left].
    destruct (d <? r)%float eqn:Hlt; [reflexivity|].
    rewrite (leb_total d r Hd Hr Hlt) in H. discriminate.
  - intros [H|H]; [now apply ltb_not_leb | now apply leb_nan_r].
Qed.

(** *** NaN and zero through the arithmetic *)

Lemma is_nan_spec x : is_nan x = true <-> Prim2SF x = S754_nan.
Proof.
  rewrite is_nan_key. unfold fkey.
  destruct (Prim2SF x) as [s|s| |s m e]; try destruct s; cbn;
    split; intros H; congruence.
Qed.




Lemma nan_mul_l x y : is_nan x = true -> is_nan (x * y)%float = true.
Proof.
  rewrite !is_nan_spec, mul_spec. intros ->. reflexivity.
Qed.






Lemma mul_comm x y : (x * y)%float = (y * x)%float.
Proof.
  apply Prim2SF_inj. rewrite !mul_spec. unfold SF64mul, SFmul.
  destruct (Prim2SF x) as [sx|sx| |sx mx ex], (Prim2SF y) as [sy|sy| |sy my ey];
    try reflexivity; try (now rewrite xorb_comm).
  now rewrite xorb_comm, Pos.mul_comm, Z.add_comm.
Qed.

(** *** Signs through the arithmetic *)

Lemma shr_1_nonneg mrs : 0 <= shr_m mrs -> 0 <= shr_m (shr_1 mrs).
Proof.
  destruct mrs as [m r s]. cbn [shr_m]. intros H.
  destruct m as [|p|p]; [| |lia]; cbn; [lia|]. destruct p; cbn; lia.
Qed.

Lemma iter_pos_nonneg n mrs :
  0 <= shr_m mrs -> 0 <= shr_m (SpecFloat.iter_pos shr_1 n mrs).
Proof.
  revert mrs. induction n as [n IH|n IH|]; intros mrs H; cbn.
  - apply IH, IH, shr_1_nonneg, H.
  - apply IH, IH, H.
  - apply shr_1_nonneg, H.
Qed.

Lemma shr_nonneg mrs e n : 0 <= shr_m mrs -> 0 <= shr_m (fst (shr mrs e n)).
Proof.
  intros H. unfold shr. destruct n; cbn [fst]; auto using iter_pos_nonneg.
Qed.

Lemma shr_fexp_nonneg prec emax m e l :
  0 <= m -> 0 <= shr_m (fst (shr_fexp prec emax m e l)).
Proof.
  intros H. unfold shr_fexp. apply shr_nonneg.
  destruct l as [|[]]; exact H.
Qed.

Lemma round_nearest_even_nonneg m l : 0 <= m -> 0 <= round_nearest_even m l.
Proof.
  intros H. unfold round_nearest_even.
  destruct l as [|[]]; try lia. destruct (Z.even m); lia.
Qed.

Lemma binary_round_aux_nonneg prec emax mx ex lx :
  0 <= mx -> nonneg (binary_round_aux prec emax false mx ex lx) = true.
Proof.
  intros H. unfold binary_round_aux.
  pose proof (shr_fexp_nonneg prec emax mx ex lx H) as H1.
  destruct (shr_fexp prec emax mx ex lx) as [mrs' e']. cbn [fst] in H1.
  pose proof (shr_fexp_nonneg prec emax
                (round_nearest_even (shr_m mrs') (loc_of_shr_record mrs')) e'
                loc_Exact (round_nearest_even_nonneg _ _ H1)) as H2.
  destruct (shr_fexp prec emax _ e' loc_Exact) as [mrs'' e'']. cbn [fst] in H2.
  destruct (shr_m mrs''); [reflexivity| |lia].
  destruct (e'' <=? emax - prec); reflexivity.
Qed.

Lemma SFdiv_nonneg prec emax x y :
  positive_finite x = true -> positive_finite y = true ->
  nonneg (SFdiv prec emax x y) = true.
Proof.
  destruct x as [| | |[] mx ex], y as [| | |[] my ey]; try discriminate.
  intros _ _. unfold SFdiv. cbn [xorb].
  destruct (SFdiv_core_binary prec emax (Z.pos mx) ex (Z.pos my) ey)
    as [[mz ez] lz] eqn:E.
  apply binary_round_aux_nonneg.
  unfold SFdiv_core_binary in E.
  match type of E with
  | context [Z.div_eucl ?a ?b] =>
      pose proof (Z.div_pos a b) as Hq; unfold Z.div in Hq;
      destruct (Z.div_eucl a b) as [q r] eqn:Eq
  end.
  injection E as <- _ _. cbn [fst] in Hq. apply Hq; [|lia].
  match goal with |- 0 <= match ?s with _ => _ end => destruct s end;
    try lia. apply Z.shiftl_nonneg. lia.
Qed.

Lemma SFmul_square prec emax x :
  nonneg x = true -> nonneg (SFmul prec emax x x) = true.
Proof.
  destruct x as [s|[]| |[] m e]; try discriminate; intros _; cbn.
  - reflexivity.
  - reflexivity.
  - apply binary_round_aux_nonneg. lia.
Qed.

Lemma SFmul_finite prec emax x y :
  positive_finite x = true -> nonneg y = true ->
  nonneg (SFmul prec emax x y) = true.
Proof.
  destruct x as [| | |[] mx ex]; try discriminate.
  destruct y as [s|[]| |[] my ey]; try discriminate; intros _ _; cbn;
    try reflexivity.
  apply binary_round_aux_nonneg. lia.
Qed.

Lemma SFadd_nonneg prec emax x y :
  nonneg x = true -> nonneg y = true -> nonneg (SFadd prec emax x y) = true.
Proof.
  destruct x as [sx|[]| |[] mx ex], y as [sy|[]| |[] my ey];
    try discriminate; intros _ _; cbn; try reflexivity.
  - destruct sx, sy; reflexivity.
  - unfold binary_normalize, binary_round.
    destruct (shl_align mx ex (Z.min ex ey)) as [m1 e1].
    destruct (shl_align my ey (Z.min ex ey)) as [m2 e2]. cbn [fst].
    change (Z.pos m1 + Z.pos m2) with (Z.pos (m1 + m2)). cbv iota.
    match goal with
    | |- context [shl_align ?a ?b ?c] => destruct (shl_align a b c) as [mz ez]
    end.
    apply binary_round_aux_nonneg. lia.
Qed.

Lemma SFsqrt_nonneg prec emax x :
  nonneg x = true -> nonneg (SFsqrt prec emax x) = true.
Proof.
  destruct x as [s|[]| |[] m e]; try discriminate; intros _; cbn [SFsqrt];
    try reflexivity.
  destruct (SFsqrt_core_binary prec emax (Z.pos m) e) as [[mz ez] lz] eqn:E.
  apply binary_round_aux_nonneg.
  unfold SFsqrt_core_binary in E.
  match type of E with
  | context [Z.sqrtrem ?a] =>
      pose proof (Z.sqrtrem_sqrt a) as Hq; pose proof (Z.sqrt_nonneg a) as Hs;
      destruct (Z.sqrtrem a) as [q r] eqn:Eq
  end.
  injection E as <- _ _. cbn [fst] in Hq. lia.
Qed.

Section Signs.

Local Open Scope float_scope.

Lemma positive_nonnegative x : positive x -> nonnegative x.
Proof. unfold positive, nonnegative. destruct (Prim2SF x) as [| | |[] m e]; auto; discriminate. Qed.

Lemma nonnegative_number x : nonnegative x -> is_nan x = false.
Proof.
  unfold nonnegative, is_nan. rewrite FloatAxioms.eqb_spec.
  destruct (Prim2SF x) as [s|[]| |[] m e]; try discriminate; intros _; cbn.
  - reflexivity.
  - reflexivity.
  - unfold SFeqb, SFcompare. rewrite Z.compare_refl.
    change (Pos.compare_cont Eq m m) with (m ?= m)%positive.
    now rewrite Pos.compare_refl.
Qed.

Lemma nonnegative_div x y : positive x -> positive y -> nonnegative (x / y).
Proof. unfold positive, nonnegative. rewrite div_spec. apply SFdiv_nonneg. Qed.

Lemma nonnegative_square x : nonnegative x -> nonnegative (x * x).
Proof. unfold nonnegative. rewrite mul_spec. apply SFmul_square. Qed.

Lemma nonnegative_mul x y : positive x -> nonnegative y -> nonnegative (x * y).
Proof. unfold positive, nonnegative. rewrite mul_spec. apply SFmul_finite. Qed.

Lemma nonnegative_add x y : nonnegative x -> nonnegative y -> nonnegative (x + y).
Proof. unfold nonnegative. rewrite add_spec. apply SFadd_nonneg. Qed.

Lemma nonnegative_sqrt x : nonnegative x -> nonnegative (sqrt x).
Proof. unfold nonnegative. rewrite sqrt_spec. apply SFsqrt_nonneg. Qed.

Lemma positive_one : positive 1.
Proof. reflexivity. Qed.

(** A finite value that is not a zero has a positive finite absolute
    value. *)
Lemma positive_abs x : is_finite x = true -> (x =? 0) = false -> positive (abs x).
Proof.
  unfold is_finite, is_nan, is_infinity, positive.
  rewrite !FloatAxioms.eqb_spec, abs_spec.
  change (Prim2SF 0) with (S754_zero false).
  change (Prim2SF infinity) with (S754_infinity false).
  destruct (Prim2SF x) as [s|s| |s m e]; cbn; try discriminate; auto.
  all: destruct s; cbn; try discriminate; auto.
Qed.

Lemma zero_div x : positive x -> 0 / x = 0.
Proof.
  unfold positive. intros H. apply Prim2SF_inj. rewrite div_spec.
  change (Prim2SF 0) with (S754_zero false).
  destruct (Prim2SF x) as [| | |[] m e]; try discriminate. reflexivity.
Qed.

Lemma zero_lt x : positive x -> (0 <? x) = true.
Proof.
  unfold positive. rewrite FloatAxioms.ltb_spec.
  change (Prim2SF 0) with (S754_zero false).
  destruct (Prim2SF x) as [| | |[] m e]; try discriminate. reflexivity.
Qed.

End Signs.

End F64.

(** ** Distances *)

(** After the first difference the state of the scaling loop is its start
    state or [(|x|, 1)]. *)
Lemma nrm2_step_first x :
  is_finite x = true ->
  nrm2_step (0, 1) x = (0, 1) \/
  (nrm2_step (0, 1) x = (abs x, 1) /\ F64.positive (abs x)).
Proof.
  intros Hx. unfold nrm2_step. cbn [fst snd].
  destruct (x =? 0) eqn:E; [left; reflexivity|right].
  pose proof (F64.positive_abs x Hx E) as Hp.
  rewrite (F64.zero_lt _ Hp), (F64.zero_div _ Hp).
  split; [reflexivity | exact Hp].
Qed.

(** The norm of two finite differences is a zero, a positive number or
    [+infinity]: the scaling never divides a zero by a zero nor multiplies a
    zero by an infinity. *)
Lemma nrm2_nonnegative dx dy :
  is_finite dx = true -> is_finite dy = true -> F64.nonnegative (nrm2 dx dy).
Proof.
  intros Hx Hy. unfold nrm2.
  assert (H1 : F64.nonnegative 1) by reflexivity.
  destruct (nrm2_step_first dx Hx) as [->|[-> Hp]];
    unfold nrm2_step; cbn [fst snd];
    (destruct (dy =? 0) eqn:E; cbn [fst snd]).
  - reflexivity.
  - pose proof (F64.positive_abs dy Hy E) as Hq.
    rewrite (F64.zero_lt _ Hq), (F64.zero_div _ Hq). cbn [fst snd].
    apply F64.nonnegative_mul; [exact Hq | reflexivity].
  - apply F64.nonnegative_mul; [exact Hp | reflexivity].
  - pose proof (F64.positive_abs dy Hy E) as Hq.
    destruct (abs dx <? abs dy); cbn [fst snd].
    + apply F64.nonnegative_mul; [exact Hq|].
      apply F64.nonnegative_sqrt, F64.nonnegative_add; [exact H1|].
      apply F64.nonnegative_mul; [exact F64.positive_one|].
      apply F64.nonnegative_square, F64.nonnegative_div; assumption.
    + apply F64.nonnegative_mul; [exact Hp|].
      apply F64.nonnegative_sqrt, F64.nonnegative_add; [exact H1|].
      apply F64.nonnegative_square, F64.nonnegative_div; assumption.
Qed.

(** A distance that [euclidean] returns is a number. *)
Lemma euclidean_number u v d : euclidean u v = Ok d -> is_nan d = false.
Proof.
  unfold euclidean.
  destruct (is_finite (fst u - fst v)) eqn:Ex; [|discriminate].
  destruct (is_finite (snd u - snd v)) eqn:Ey; [|discriminate].
  cbn [andb]. intros [= <-].
  now apply F64.nonnegative_number, nrm2_nonnegative.
Qed.

Lemma dist_of_ok sa b d : euclidean sa (biz_coords b) = Ok d -> dist_of sa b = d.
Proof. unfold dist_of. now intros ->. Qed.

(** ** The nearest-business scan *)

Section Scan.

Variable dist : Business -> float.

(** What the inner loop leaves in [(min_dist, nearest_business)]: either no
    business was strictly below the initial distance and the state is
    untouched, or the state is the first business, in list order, that no
    other business beats. *)
Lemma scan_spec bs st :
  (pure_scan dist bs st = st /\
     forall g, In g bs -> (dist g <? fst st) = false)
  \/ (exists pre b post,
        bs = pre ++ b :: post /\
        pure_scan dist bs st = (dist b, Some (name b)) /\
        (dist b <? fst st) = true /\
        (forall g, In g pre -> (dist g <=? dist b) = false) /\
        (forall g, In g post -> (dist g <? dist b) = false)).
Proof.
  unfold pure_scan. revert st. induction bs as [|b bs IH]; intros st.
  - left. split; [reflexivity | intros g []].
  - cbn [fold_left].
    change (scan_step st (name b) (dist b))
      with (if dist b <? fst st then (dist b, Some (name b)) else st).
    destruct (dist b <? fst st) eqn:Hb.
    + right. destruct (IH (dist b, Some (name b)))
        as [[E H]|(pre & b' & post & E & R & L & Hpre & Hpost)].
      * exists [], b, bs. cbn [fst] in H. repeat split; auto. intros g [].
      * exists (b :: pre), b', post. cbn [fst] in L. subst bs.
        repeat split; auto.
        -- eapply F64.ltb_trans; eassumption.
        -- intros g [<-|Hg]; [|auto]. now apply F64.ltb_not_leb.
    + destruct (IH st) as [[E H]|(pre & b' & post & E & R & L & Hpre & Hpost)].
      * left. split; [assumption|]. intros g [<-|Hg]; auto.
      * right. exists (b :: pre), b', post. subst bs.
        repeat split; auto.
        intros g [<-|Hg]; [|auto].
        destruct (dist b <=? dist b') eqn:Hle; [|reflexivity].
        rewrite (F64.leb_ltb_trans _ _ _ Hle L) in Hb. discriminate.
Qed.

Let found (bs : list Business) : float * option string :=
  pure_scan dist bs (infinity, None).

Lemma found_none bs :
  snd (found bs) = None <->
  forall g, In g bs -> (dist g <? infinity) = false.
Proof.
  unfold found.
  destruct (scan_spec bs (infinity, None))
    as [[E H]|(pre & b & post & E & R & L & Hpre & Hpost)].
  - rewrite E. cbn [fst snd] in *. tauto.
  - rewrite R. cbn [fst snd] in *. split; [discriminate|].
    intros H. rewrite H in L; [discriminate|].
    subst bs. apply in_elt.
Qed.

Lemma found_none_infinity bs :
  snd (found bs) = None -> fst (found bs) = infinity.
Proof.
  unfold found.
  destruct (scan_spec bs (infinity, None))
    as [[E H]|(pre & b & post & E & R & L & Hpre & Hpost)].
  - now rewrite E.
  - rewrite R. discriminate.
Qed.

(** No business is strictly nearer than the distance kept. *)
Lemma found_lower_bound bs g :
  In g bs -> (dist g <? fst (found bs)) = false.
Proof.
  unfold found. intros Hg.
  destruct (scan_spec bs (infinity, None))
    as [[E H]|(pre & b & post & E & R & L & Hpre & Hpost)].
  - rewrite E. auto.
  - rewrite R. cbn [fst]. subst bs.
    apply in_app_or in Hg. destruct Hg as [Hg|[<-|Hg]]; auto.
    + destruct (dist g <? dist b) eqn:Hlt; [|reflexivity].
      apply F64.ltb_leb in Hlt. rewrite (Hpre g Hg) in Hlt. discriminate.
    + apply F64.ltb_irrefl.
Qed.

Lemma found_number bs : is_nan (fst (found bs)) = false.
Proof.
  unfold found.
  destruct (scan_spec bs (infinity, None))
    as [[E H]|(pre & b & post & E & R & L & Hpre & Hpost)].
  - rewrite E. reflexivity.
  - rewrite R. cbn [fst]. now apply F64.ltb_numbers in L.
Qed.

(** The business kept is at the distance kept, and every business before it
    in the list is not at that distance or below. *)
Lemma found_first bs n :
  snd (found bs) = Some n ->
  exists pre b post,
    bs = pre ++ b :: post /\ name b = n /\ fst (found bs) = dist b /\
    forall g, In g pre -> (dist g <=? dist b) = false.
Proof.
  unfold found.
  destruct (scan_spec bs (infinity, None))
    as [[E H]|(pre & b & post & E & R & L & Hpre & Hpost)].
  - rewrite E. discriminate.
  - rewrite R. cbn [fst snd]. intros [= <-]. exists pre, b, post. repeat split; auto.
Qed.

End Scan.

(** The loop of the source returns what the loop over defined distances
    computes, and returns only if every distance is defined. *)
Lemma scan_pure sa bs st r :
  scan sa bs st = Ok r ->
  r = pure_scan (dist_of sa) bs st /\
  forall g, In g bs -> euclidean sa (biz_coords g) = Ok (dist_of sa g).
Proof.
  revert st. induction bs as [|b bs IH]; intros st H; cbn [scan] in H.
  - injection H as <-. split; [reflexivity | intros g []].
  - destruct (euclidean sa (biz_coords b)) as [d|e] eqn:E; [|discriminate].
    pose proof (dist_of_ok _ _ _ E) as Hd. subst d.
    destruct (IH _ H) as [-> Hall]. split; [reflexivity|].
    intros g [<-|Hg]; auto.
Qed.

Lemma scan_defined sa bs st :
  (forall g, In g bs -> exists d, euclidean sa (biz_coords g) = Ok d) ->
  exists r, scan sa bs st = Ok r.
Proof.
  revert st. induction bs as [|b bs IH]; intros st H; cbn [scan].
  - now exists st.
  - destruct (H b (or_introl eq_refl)) as [d ->]. apply IH.
    intros g Hg. apply H. now right.
Qed.

(** The catchment lists play no part in the scan. *)
Lemma scan_with_catchment rows sa bs st :
  scan sa (map (with_catchment rows) bs) st = scan sa bs st.
Proof.
  revert st. induction bs as [|b bs IH]; intros st; [reflexivity|].
  cbn [map scan].
  change (biz_coords (with_catchment rows b)) with (biz_coords b).
  change (name (with_catchment rows b)) with (name b).
  destruct (euclidean sa (biz_coords b)); [apply IH | reflexivity].
Qed.

(** ** Fresh rows *)

Lemma fresh_row_set bs a r :
  nearest (sa_coords a) bs = Ok r ->
  fresh_row bs (set_assignment a (snd r) (fst r)).
Proof. intros H. exists r. repeat split. exact H. Qed.

Lemma fresh_row_with_catchment rows bs a :
  fresh_row bs a -> fresh_row (map (with_catchment rows) bs) a.
Proof.
  intros (r & H & Hr). exists r. split; [|exact Hr].
  unfold nearest in *. now rewrite scan_with_catchment.
Qed.

Lemma fresh_row_nil a : fresh_row [] a <-> unassigned a.
Proof.
  unfold fresh_row, unassigned, nearest. cbn [scan]. split.
  - intros (r & [= <-] & H). exact H.
  - intros H. exists (infinity, None). split; [reflexivity | exact H].
Qed.

Lemma unassigned_reset a : unassigned (reset_assignment a).
Proof. split; reflexivity. Qed.

(** What a fresh row carries: every distance is defined; the stored distance
    is below or equal to each of them; the assigned business is at the
    stored distance and every business listed before it is strictly farther;
    and the row is unassigned exactly when no distance is below
    [+infinity]. *)
Lemma fresh_row_spec bs a :
  fresh_row bs a ->
  let d := dist_of (sa_coords a) in
  (forall g, In g bs -> euclidean (sa_coords a) (biz_coords g) = Ok (d g)) /\
  (forall g, In g bs -> (distance_to_business a <=? d g) = true) /\
  (forall n, assigned_business a = Some n ->
     exists pre b post,
       bs = pre ++ b :: post /\ name b = n /\
       distance_to_business a = d b /\
       forall g, In g pre -> (d b <? d g) = true) /\
  (unassigned a <-> forall g, In g bs -> (d g <? infinity) = false).
Proof.
  intros (r & Hr & Ha & Hd) d. unfold nearest in Hr.
  apply scan_pure in Hr. destruct Hr as [-> Hall]. fold d in Ha, Hd, Hall.
  assert (Hnum : forall g, In g bs -> is_nan (d g) = false)
    by (intros g Hg; exact (euclidean_number _ _ _ (Hall g Hg))).
  split; [exact Hall|]. split; [|split].
  - intros g Hg. rewrite Hd. apply F64.leb_total.
    + now apply Hnum.
    + apply found_number.
    + now apply found_lower_bound.
  - intros n Hn. rewrite Ha in Hn.
    destruct (found_first d bs n Hn) as (pre & b & post & E & Hb & Hf & Hpre).
    exists pre, b, post. rewrite Hd. repeat split; auto.
    intros g Hg. destruct (d b <? d g) eqn:Hlt; [reflexivity|].
    assert (Hin : In g bs) by (subst bs; apply in_or_app; now left).
    assert (Hb' : In b bs) by (subst bs; apply in_elt).
    pose proof (Hpre g Hg) as Hgb.
    rewrite (F64.leb_total _ _ (Hnum b Hb') (Hnum g Hin) Hlt) in Hgb.
    discriminate.
  - unfold unassigned. rewrite Ha, Hd. split.
    + intros [H _]. now apply found_none.
    + intros H. apply found_none in H. split; [assumption|].
      now apply found_none_infinity.
Qed.

(** ** Recomputation *)

Lemma assign_rows_coords bs rows :
  map sa_coords (fst (assign_rows bs rows)) = map sa_coords rows.
Proof.
  induction rows as [|a rows IH]; [reflexivity|]. cbn [assign_rows].
  destruct (nearest (sa_coords a) bs); [|reflexivity].
  cbn [fst map]. now rewrite IH.
Qed.

(** Each row that the outer loop leaves is a row it received or a fresh
    one. *)
Lemma assign_rows_rows bs rows a :
  In a (fst (assign_rows bs rows)) -> In a rows \/ fresh_row bs a.
Proof.
  induction rows as [|a0 rows IH]; cbn [assign_rows]; [intros []|].
  destruct (nearest (sa_coords a0) bs) as [r|e] eqn:E; cbn [fst].
  - intros [<-|H].
    + right. now apply fresh_row_set.
    + destruct (IH H); [left; now right | now right].
  - now left.
Qed.

(** When the outer loop returns, every row is fresh. *)
Lemma assign_rows_ok bs rows u a :
  snd (assign_rows bs rows) = Ok u ->
  In a (fst (assign_rows bs rows)) -> fresh_row bs a.
Proof.
  induction rows as [|a0 rows IH]; cbn [assign_rows]; [intros _ []|].
  destruct (nearest (sa_coords a0) bs) as [r|e] eqn:E; cbn [fst snd];
    [|discriminate].
  intros Hs [<-|H]; [now apply fresh_row_set | now apply IH].
Qed.

(** The outer loop returns when every distance is defined. *)
Lemma assign_rows_defined bs rows :
  (forall u g, In u (map sa_coords rows) -> In g bs ->
     exists d, euclidean u (biz_coords g) = Ok d) ->
  snd (assign_rows bs rows) = Ok tt.
Proof.
  induction rows as [|a rows IH]; intros H; cbn [assign_rows]; [reflexivity|].
  destruct (scan_defined (sa_coords a) bs (infinity, None)) as [r Hr].
  { intros g Hg. apply H; [now left | exact Hg]. }
  unfold nearest. rewrite Hr. cbn [snd]. apply IH.
  intros u g Hu Hg. apply H; [now right | exact Hg].
Qed.

Lemma map_reset_coords rows :
  map sa_coords (map reset_assignment rows) = map sa_coords rows.
Proof. rewrite map_map. reflexivity. Qed.

Lemma with_catchment_entries rows bs :
  map entry (map (with_catchment rows) bs) = map entry bs.
Proof. rewrite map_map. reflexivity. Qed.

(** Recomputing never changes the Registry, whether it returns or raises. *)
Lemma registry_recalculate t :
  registry (fst (_recalculate_catchments t)) = registry t.
Proof.
  unfold registry, _recalculate_catchments.
  destruct (businesses t) as [|b bs]; [reflexivity|].
  destruct (snd (assign_rows (b :: bs) (map reset_assignment (sa_data t))));
    cbn [fst businesses]; [apply with_catchment_entries | reflexivity].
Qed.

Lemma coords_recalculate t :
  map sa_coords (sa_data (fst (_recalculate_catchments t))) =
  map sa_coords (sa_data t).
Proof.
  unfold _recalculate_catchments.
  destruct (businesses t) as [|b bs]; [apply map_reset_coords|].
  destruct (snd (assign_rows (b :: bs) (map reset_assignment (sa_data t))));
    cbn [fst sa_data]; now rewrite assign_rows_coords, map_reset_coords.
Qed.

(** Computability is a matter of coordinates only. *)
Lemma computable_coords t :
  computable t <->
  forall u e, In u (map sa_coords (sa_data t)) -> In e (registry t) ->
    exists d, euclidean u (snd (fst e), snd e) = Ok d.
Proof.
  unfold computable, registry. split.
  - intros H u e Hu He.
    apply in_map_iff in Hu. destruct Hu as (a & <- & Ha).
    apply in_map_iff in He. destruct He as (g & <- & Hg).
    exact (H a g Ha Hg).
  - intros H a g Ha Hg.
    exact (H (sa_coords a) (entry g) (in_map _ _ _ Ha) (in_map _ _ _ Hg)).
Qed.

Lemma computable_recalculate t :
  computable (fst (_recalculate_catchments t)) <-> computable t.
Proof.
  rewrite !computable_coords, registry_recalculate, coords_recalculate.
  reflexivity.
Qed.

(** The state that a recomputation leaves: every row is unassigned or fresh;
    every row is fresh if it returned; and it returns if the state is
    computable. *)
Lemma recalculate_rows t :
  let done := _recalculate_catchments t in
  (forall a, In a (sa_data (fst done)) ->
     unassigned a \/ fresh_row (businesses (fst done)) a) /\
  (snd done = Ok tt ->
     forall a, In a (sa_data (fst done)) -> fresh_row (businesses (fst done)) a) /\
  (computable t -> snd done = Ok tt).
Proof.
  unfold _recalculate_catchments.
  destruct (businesses t) as [|b bs] eqn:Eb; cbn zeta.
  - cbn [fst snd sa_data businesses].
    assert (H : forall a, In a (map reset_assignment (sa_data t)) -> unassigned a).
    { intros a Ha. apply in_map_iff in Ha. destruct Ha as (a0 & <- & _).
      apply unassigned_reset. }
    split; [intros a Ha; left; now apply H|].
    split; [intros _ a Ha; apply fresh_row_nil; now apply H | reflexivity].
  - assert (Hc : computable t ->
              snd (assign_rows (b :: bs) (map reset_assignment (sa_data t))) = Ok tt).
    { intros Hc. apply assign_rows_defined. intros u g Hu Hg.
      rewrite map_reset_coords in Hu. apply in_map_iff in Hu.
      destruct Hu as (a & <- & Ha). apply (Hc a g Ha). now rewrite Eb. }
    destruct (snd (assign_rows (b :: bs) (map reset_assignment (sa_data t))))
      as [[]|e] eqn:Es; cbn [fst snd sa_data businesses].
    + assert (H : forall a,
                In a (fst (assign_rows (b :: bs) (map reset_assignment (sa_data t)))) ->
                fresh_row (map (with_catchment
                  (fst (assign_rows (b :: bs) (map reset_assignment (sa_data t)))))
                  (b :: bs)) a).
      { intros a Ha. apply fresh_row_with_catchment.
        exact (assign_rows_ok _ _ _ _ Es Ha). }
      split; [intros a Ha; right; now apply H|].
      split; [intros _; exact H | reflexivity].
    + split; [|split; [discriminate | exact Hc]].
      intros a Ha. destruct (assign_rows_rows _ _ _ Ha) as [Hin|Hf]; [left|now right].
      apply in_map_iff in Hin. destruct Hin as (a0 & <- & _).
      apply unassigned_reset.
Qed.

Lemma recalculate_consistent t : consistent (fst (_recalculate_catchments t)).
Proof.
  destruct (recalculate_rows t) as (Hrows & Hok & Hc). split; [exact Hrows|].
  intros H. apply Hok, Hc. now apply computable_recalculate.
Qed.

Lemma init_consistent columns df : consistent (init columns df).
Proof.
  assert (H : forall a, In a (sa_data (init columns df)) -> unassigned a).
  { intros a Ha. cbn [init sa_data] in Ha. apply in_map_iff in Ha.
    destruct Ha as (a0 & <- & _). apply unassigned_reset. }
  split.
  - intros a Ha. left. now apply H.
  - intros _ a Ha. apply fresh_row_nil. now apply H.
Qed.

Lemma add_business_state t n la lo :
  fst (add_business t n la lo) =
  fst (_recalculate_catchments
         {| extra_columns := extra_columns t; sa_data := sa_data t;
            businesses :=
              businesses t ++ [{| name := n; lat := la; lon := lo; catchment := [] |}] |}).
Proof. unfold add_business. now destruct (snd _). Qed.

Lemma apply_mutation_consistent t m : consistent (apply_mutation t m).
Proof.
  destruct m; cbn [apply_mutation].
  - rewrite add_business_state. apply recalculate_consistent.
  - apply recalculate_consistent.
Qed.

Lemma run_consistent t ms : consistent t -> consistent (run t ms).
Proof.
  unfold run. revert t. induction ms as [|m ms IH]; intros t Ht; [assumption|].
  cbn [fold_left]. apply IH, apply_mutation_consistent.
Qed.

(** A row of a consistent state names a business of the Registry, if it
    names one at all. *)
Lemma consistent_assigned t a n :
  consistent t -> In a (sa_data t) -> assigned_business a = Some n ->
  exists g, In g (businesses t) /\ name g = n.
Proof.
  intros [H _] Ha Hn. destruct (H a Ha) as [[Hnone _]|Hf]; [congruence|].
  destruct (fresh_row_spec _ _ Hf) as (_ & _ & Hfirst & _).
  destruct (Hfirst n Hn) as (pre & b & post & E & Hb & _).
  exists b. split; [|assumption]. rewrite E. apply in_elt.
Qed.

(** ** Nearest-facility assignment *)



(** The two facilities of [tie_tool] are both at distance 5, and the first
    one keeps the area. *)
Example tie_goes_to_the_earliest :
  map (dist_of (0, 0)) (businesses tie_tool) = [5; 5] /\
  map assigned_business (sa_data (fst (_recalculate_catchments tie_tool))) =
    [Some "F1"%string].
Proof. vm_compute. split; reflexivity. Qed.

(** ** Total coverage *)


(** The facility of [far_tool] was added without an exception, at a distance
    that is [+infinity]. *)
Example far_facility_is_at_infinity :
  let t := init [] [area_at "A0" 0 0] in
  snd (add_business t "Far" 1.7e308 1.7e308) =
    Ok {| name := "Far"; lat := 1.7e308; lon := 1.7e308; catchment := [] |} /\
  euclidean (0, 0) (1.7e308, 1.7e308) = Ok infinity.
Proof. vm_compute. split; reflexivity. Qed.

(** A facility with NaN coordinates, which [float("nan")] of the bulk import
    produces: [add_business] raises after the append, the facility stays in
    the Registry and every area is left unassigned. *)
Example nan_facility_leaves_areas_unassigned :
  let t := init [] [area_at "A0" 0 0] in
  snd (add_business t "N" nan nan) = Raise ValueError /\
  registry (fst (add_business t "N" nan nan)) = [("N"%string, nan, nan)] /\
  map assigned_business (sa_data (fst (add_business t "N" nan nan))) = [None].
Proof. vm_compute. repeat split; reflexivity. Qed.


Example scenario_c_assignments :
  map assigned_business (sa_data scenario_tool) = [Some "F2"; Some "F2"]%string.
Proof. vm_compute. reflexivity. Qed.


(** ** Adding a facility *)

Lemma add_business_registry t n la lo :
  registry (fst (add_business t n la lo)) = registry t ++ [(n, la, lo)].
Proof.
  rewrite add_business_state, registry_recalculate.
  unfold registry. cbn [businesses]. rewrite map_app. reflexivity.
Qed.

(** C3, as stated, fails: a latitude of 91 degrees is appended without any
    error, by the method and through the handler of the dashboard alike. *)
Lemma add_validation_counterexample :
  let t := init [] [area_at "A0" 0 0] in
  in_range 91 0 = false /\
  registry t = [] /\
  registry (fst (add_business t "X" 91 0)) = [("X"%string, 91, 0)] /\
  snd (add_business t "X" 91 0) =
    Ok {| name := "X"; lat := 91; lon := 0; catchment := ["A0"%string] |} /\
  add_business_button t "X" 91 0 =
    (fst (add_business t "X" 91 0), Ok (success "Added X!")).
Proof. vm_compute. repeat split; reflexivity. Qed.

(** An empty name is appended by the method as well. *)
Example add_business_accepts_empty_name :
  registry (fst (add_business (init [] []) "" 0 0)) = [(""%string, 0, 0)].
Proof. vm_compute. reflexivity. Qed.

(** C3 (amended).  [add_business] validates nothing: whatever the name and
    the coordinates, the facility is appended at the end of the Registry,
    also when the recomputation that follows raises.  Only the handler of
    the dashboard rejects a request, and only for an empty name: it reports
    an error and leaves the whole state as it was; with any other name it
    adds the facility whatever the coordinates, and reports a success
    whenever [add_business] returns. *)
Theorem add_never_rejects (t : MarketResearchTool) (n : string) (la lo : float) :
  registry (fst (add_business t n la lo)) = registry t ++ [(n, la, lo)] /\
  add_business_button t "" la lo = (t, Ok (error "Please enter a business name")) /\
  (n <> ""%string ->
     fst (add_business_button t n la lo) = fst (add_business t n la lo) /\
     registry (fst (add_business_button t n la lo)) = registry t ++ [(n, la, lo)] /\
     forall b, snd (add_business t n la lo) = Ok b ->
       snd (add_business_button t n la lo) =
         Ok (success ("Added " ++ n ++ "!"))).
Proof.
  pose proof (add_business_registry t n la lo) as H.
  split; [exact H|]. split; [reflexivity|].
  intros Hn. unfold add_business_button.
  destruct (String.eqb_spec n ""); [contradiction|].
  destruct (snd (add_business t n la lo)) as [b|e]; cbn [fst snd].
  - split; [reflexivity|]. split; [exact H | reflexivity].
  - split; [reflexivity|]. split; [exact H | discriminate].
Qed.

Lemma add_never_rejects_witness :
  let t := init [] [area_at "A0" 0 0] in
  "Depot"%string <> ""%string /\
  registry (fst (add_business_button t "Depot" 95 200)) =
    registry t ++ [("Depot"%string, 95, 200)].
Proof.
  assert (H : "Depot"%string <> ""%string) by discriminate.
  split; [exact H|].
  exact (proj1 (proj2 (proj2 (proj2
           (add_never_rejects (init [] [area_at "A0" 0 0]) "Depot" 95 200)) H))).
Defined.

(** ** Exclusion filtering *)

Lemma exclusion_loop r bs rows a :
  In a (fold_left (exclude_near r) bs rows) <->
  In a rows /\
  forall g, In g bs -> (r <=? cdist_euclidean (sa_coords a) (biz_coords g)) = true.
Proof.
  revert rows. induction bs as [|b bs IH]; intros rows; cbn [fold_left].
  - split; [intros H; split; [exact H | intros g []] | tauto].
  - rewrite IH. unfold exclude_near. rewrite filter_In. split.
    + intros [[Hr Hb] Hbs]. split; [exact Hr|]. intros g [<-|Hg]; auto.
    + intros [Hr H]. repeat split; auto using in_eq, in_cons.
Qed.

Lemma exclusion_filter_active t r :
  businesses t <> [] -> (0 <? r) = true ->
  exclusion_filter t r = fold_left (exclude_near r) (businesses t) (sa_data t).
Proof.
  intros Hb Hr. unfold exclusion_filter.
  destruct (businesses t); [contradiction|]. now rewrite Hr.
Qed.

Lemma exclusion_filter_idle t r :
  businesses t = [] \/ (0 <? r) = false -> exclusion_filter t r = sa_data t.
Proof.
  unfold exclusion_filter. intros [->| ->]; [reflexivity|].
  destruct (businesses t); reflexivity.
Qed.

Lemma exclusion_filter_subset t r a :
  In a (exclusion_filter t r) -> In a (sa_data t).
Proof.
  unfold exclusion_filter. destruct (businesses t) as [|b bs]; [auto|].
  destruct (0 <? r); [|auto]. intros H. now apply exclusion_loop in H.
Qed.

(** C7. Monotonic exclusion: with the Registry and the areas fixed, a
    candidate that survives the exclusion radius [r2] survives every smaller
    radius [r1]. *)
Theorem exclusion_monotone (t : MarketResearchTool) (r1 r2 : float) (a : Area) :
  (r1 <? r2) = true ->
  In a (exclusion_filter t r2) -> In a (exclusion_filter t r1).
Proof.
  intros Hlt H2.
  destruct (0 <? r1) eqn:H1;
    [|rewrite exclusion_filter_idle by (now right);
      eapply exclusion_filter_subset; eassumption].
  destruct (businesses t) as [|b bs] eqn:Hb;
    [rewrite exclusion_filter_idle by (now left);
     eapply exclusion_filter_subset; eassumption|].
  assert (Hne : businesses t <> []) by (rewrite Hb; discriminate).
  assert (H0 : (0 <? r2) = true) by (eapply F64.ltb_trans; eassumption).
  rewrite exclusion_filter_active in * by assumption.
  apply exclusion_loop in H2. apply exclusion_loop.
  destruct H2 as [Hr Hg]. split; [exact Hr|].
  intros g Hin. eapply F64.ltb_leb_trans; [exact Hlt | now apply Hg].
Qed.

Example scenario_d :
  map SA1 (exclusion_filter radius_tool 0.05) = ["edge"; "far"]%string.
Proof. vm_compute. reflexivity. Qed.

Lemma exclusion_monotone_witness :
  (0.05 <? 0.2) = true /\
  In far_row (exclusion_filter radius_tool 0.2) /\
  In far_row (exclusion_filter radius_tool 0.05).
Proof.
  assert (H : (0.05 <? 0.2) = true) by reflexivity.
  assert (H2 : In far_row (exclusion_filter radius_tool 0.2))
    by (vm_compute; left; reflexivity).
  split; [exact H|]. split; [exact H2|].
  exact (exclusion_monotone radius_tool 0.05 0.2 far_row H H2).
Defined.

Lemma not_all_true {A} (p : A -> bool) (l : list A) :
  ~ (forall g, In g l -> p g = true) <-> exists g, In g l /\ p g = false.
Proof.
  split.
  - induction l as [|x l IH]; intros H.
    + exfalso. apply H. intros g [].
    + destruct (p x) eqn:Hx.
      * destruct IH as (g & Hg & Hp).
        { intros Hall. apply H. intros g [<-|Hg]; auto. }
        exists g. auto using in_cons.
      * exists x. auto using in_eq.
  - intros (g & Hg & Hp) Hall. rewrite (Hall g Hg) in Hp. discriminate.
Qed.

(** C5, as stated, fails: the only area of [nan_tool] is removed by a radius
    of 0.05 although its distance to the only facility is not below 0.05. *)
Lemma exclusion_counterexample : ~ exclusion_claim nan_tool 0.05.
Proof.
  intros H.
  assert (Hin : In (area_at "A0" 0 0) (sa_data nan_tool))
    by (vm_compute; left; reflexivity).
  apply H in Hin. destruct Hin as [Hrem _].
  destruct Hrem as (g & Hg & Hlt).
  - vm_compute. intros [].
  - vm_compute in Hg. destruct Hg as [<-|[]]. vm_compute in Hlt. discriminate.
Qed.

(** C5 (amended).  With at least one facility and a positive radius, the
    candidates kept are exactly the areas at a distance [>=] the radius from
    every facility, an area at the radius itself included; the areas removed
    are exactly those whose distance to some facility is strictly below the
    radius or is NaN.  When nothing is left the result is the empty list. *)
Theorem exclusion_exact (t : MarketResearchTool) (r : float) (num_locations : Z)
  (target_demographics : option (gmap string string)) :
  businesses t <> [] -> (0 <? r) = true ->
  (forall a, In a (exclusion_filter t r) <->
     In a (sa_data t) /\
     forall g, In g (businesses t) ->
       (r <=? cdist_euclidean (sa_coords a) (biz_coords g)) = true) /\
  (forall a, In a (sa_data t) ->
     ~ In a (exclusion_filter t r) <->
     exists g, In g (businesses t) /\
       ((cdist_euclidean (sa_coords a) (biz_coords g) <? r) = true \/
        is_nan (cdist_euclidean (sa_coords a) (biz_coords g)) = true)) /\
  (forall a, In a (sa_data t) ->
     (forall g, In g (businesses t) ->
        cdist_euclidean (sa_coords a) (biz_coords g) = r) ->
     In a (exclusion_filter t r)) /\
  (exclusion_filter t r = [] ->
     find_optimal_location t num_locations target_demographics r = Ok []).
Proof.
  intros Hb Hr.
  assert (Hnum : is_nan r = false) by (now apply F64.ltb_numbers in Hr).
  rewrite exclusion_filter_active by assumption.
  split; [intros a; apply exclusion_loop|]. split; [|split].
  - intros a Ha. rewrite exclusion_loop.
    transitivity (~ forall g, In g (businesses t) ->
                      (r <=? cdist_euclidean (sa_coords a) (biz_coords g)) = true);
      [tauto|].
    rewrite (not_all_true
               (fun g => r <=? cdist_euclidean (sa_coords a) (biz_coords g))).
    split; intros (g & Hg & H); exists g; (split; [exact Hg|]);
      now apply (F64.leb_false_iff _ _ Hnum).
  - intros a Ha Heq. apply exclusion_loop. split; [exact Ha|].
    intros g Hg. rewrite (Heq g Hg). now apply F64.leb_refl.
  - intros E. unfold find_optimal_location.
    rewrite exclusion_filter_active by assumption. now rewrite E.
Qed.

Lemma exclusion_exact_witness :
  businesses radius_tool <> [] /\ (0 <? 0.05) = true /\
  (forall a, In a (exclusion_filter radius_tool 0.05) <->
     In a (sa_data radius_tool) /\
     forall g, In g (businesses radius_tool) ->
       (0.05 <=? cdist_euclidean (sa_coords a) (biz_coords g)) = true).
Proof.
  assert (Hb : businesses radius_tool <> []) by (vm_compute; discriminate).
  assert (Hr : (0 <? 0.05) = true) by reflexivity.
  split; [exact Hb|]. split; [exact Hr|].
  exact (proj1 (exclusion_exact radius_tool 0.05 1 None Hb Hr)).
Defined.

(** With the NaN facility every search returns nothing. *)
Example nan_facility_empties_search :
  find_optimal_location nan_tool 1 None 0.05 = Ok [].
Proof. vm_compute. reflexivity. Qed.

(** ** Column reductions *)

Lemma dropna_In xs x : In x (dropna xs) <-> In x xs /\ is_nan x = false.
Proof.
  unfold dropna. rewrite filter_In, negb_true_iff. reflexivity.
Qed.


Lemma fmax_ge a b :
  is_nan a = false -> is_nan b = false ->
  (a <=? fmax a b) = true /\ (b <=? fmax a b) = true /\
  (fmax a b = a \/ fmax a b = b).
Proof.
  intros Ha Hb. unfold fmax. destruct (a <? b) eqn:E.
  - auto using F64.ltb_leb, F64.leb_refl.
  - auto using F64.leb_total, F64.leb_refl.
Qed.


Lemma fold_fmax r x0 :
  (forall y, In y (x0 :: r) -> is_nan y = false) ->
  In (fold_left fmax r x0) (x0 :: r) /\
  forall y, In y (x0 :: r) -> (y <=? fold_left fmax r x0) = true.
Proof.
  revert x0. induction r as [|z r IH]; intros x0 H; cbn [fold_left].
  - split; [now left|]. intros y [<-|[]]. apply F64.leb_refl, H. now left.
  - destruct (fmax_ge x0 z) as (L0 & Lz & Hm); [apply H; cbn; auto ..|].
    destruct (IH (fmax x0 z)) as [Hin Hle].
    { intros y [<-|Hy]; [|apply H; cbn; auto].
      destruct Hm as [-> | ->]; apply H; cbn; auto. }
    split.
    + destruct Hin as [<-|Hin]; [|cbn; auto].
      destruct Hm as [-> | ->]; cbn; auto.
    + intros y [<-|[<-|Hy]].
      * eapply F64.leb_trans; [exact L0 | apply Hle; now left].
      * eapply F64.leb_trans; [exact Lz | apply Hle; now left].
      * apply Hle. now right.
Qed.


Lemma series_max_ge xs x :
  In x xs -> is_nan x = false -> (x <=? series_max xs) = true.
Proof.
  intros Hx Hn. assert (Hd : In x (dropna xs)) by (now apply dropna_In).
  unfold series_max, reduce. destruct (dropna xs) as [|x0 r] eqn:E; [destruct Hd|].
  apply fold_fmax; [|exact Hd].
  intros y Hy. rewrite <- E in Hy. now apply dropna_In in Hy.
Qed.

(** ** Normalization *)


(** ** Scoring *)

Lemma zip_with_map_same {A B C} (h : A -> B -> C) (k : A -> B) (l : list A) :
  zip_with h l (map k l) = map (fun x => h x (k x)) l.
Proof. induction l as [|x l IH]; cbn; [reflexivity | now rewrite IH]. Qed.

(** A scoring stage, row by row. *)
Lemma add_signal_rows w f cs :
  add_signal w f cs =
  map (fun c => {| row := row c;
                   score := score c + normalized (map f cs) (f c) * w |}) cs.
Proof.
  unfold add_signal, add_to_score, normalize. rewrite map_map.
  apply (zip_with_map_same
           (fun c n => {| row := row c; score := score c + n * w |})
           (fun c => normalized (map f cs) (f c))).
Qed.

Lemma add_signal_with_score w f s candidates :
  add_signal w f (with_score s candidates) =
  with_score
    (fun a => s a + w * normalized (map f (with_score s candidates))
                          (f {| row := a; score := s a |}))
    candidates.
Proof.
  rewrite add_signal_rows. unfold with_score at 2 3. rewrite map_map.
  apply map_ext. intros a. cbn [row score].
  now rewrite (F64.mul_comm w).
Qed.

Lemma map_with_score {B} (g : Area -> B) s candidates :
  map (fun c => g (row c)) (with_score s candidates) = map g candidates.
Proof. unfold with_score. rewrite map_map. reflexivity. Qed.

Lemma population_stage_score t candidates :
  population_stage t (with_score (fun _ => 0) candidates) =
  with_score (density_score t candidates) candidates.
Proof.
  unfold population_stage, density_score.
  destruct (has_column t "population_density"); [|reflexivity].
  rewrite add_signal_with_score. unfold density.
  now rewrite (map_with_score (cell "population_density")).
Qed.

Lemma distance_stage_score t s candidates :
  distance_stage t (with_score s candidates) =
  with_score
    (fun a =>
       match businesses t with
       | [] => s a
       | _ => s a + 0.2 * normalized (map distance_to_business candidates)
                            (distance_to_business a)
       end) candidates.
Proof.
  unfold distance_stage. destruct (businesses t); [reflexivity|].
  rewrite add_signal_with_score. unfold distance.
  now rewrite (map_with_score distance_to_business).
Qed.

Lemma score_candidates_rows (t : MarketResearchTool)
  (target_demographics : option (gmap string string))
  (candidates : list Area) (cs : list Candidate) :
  score_candidates t target_demographics candidates = Ok cs ->
  cs = with_score (weighted_score t target_demographics candidates) candidates.
Proof.
  unfold score_candidates.
  change (map (fun a => {| row := a; score := 0 |}) candidates)
    with (with_score (fun _ => 0) candidates).
  rewrite population_stage_score.
  unfold demographic_stage, weighted_score, demographic_score.
  destruct (dict_or_empty target_demographics !! "age_group"%string) as [age_col|].
  - destruct (lookup_column t age_col) as [[f|]|]; try discriminate.
    + rewrite add_signal_with_score. intros [= <-]. apply distance_stage_score.
    + intros [= <-]. apply distance_stage_score.
  - intros [= <-]. apply distance_stage_score.
Qed.

(** C6. The score column computed by the three stages is, candidate by
    candidate, the weighted sum of the applicable normalized signals:
    0.4 times the normalized density when the column exists, plus 0.4 times
    the normalized target column when one is requested and exists, plus 0.2
    times the normalized distance when there is a facility; the weights are
    never rescaled.  The candidates themselves are unchanged. *)
Theorem score_is_weighted_sum (t : MarketResearchTool)
  (target_demographics : option (gmap string string))
  (candidates : list Area) (cs : list Candidate) :
  score_candidates t target_demographics candidates = Ok cs ->
  cs = with_score (weighted_score t target_demographics candidates) candidates /\
  map row cs = candidates /\
  map score cs = map (weighted_score t target_demographics candidates) candidates.
Proof.
  intros H. apply score_candidates_rows in H. subst cs.
  unfold with_score. rewrite !map_map. cbn [row score].
  split; [reflexivity|]. split; [apply map_id | reflexivity].
Qed.

Lemma score_is_weighted_sum_witness :
  exists cs,
    score_candidates census_tool age_25_54 (sa_data census_tool) = Ok cs /\
    cs = with_score (weighted_score census_tool age_25_54 (sa_data census_tool))
           (sa_data census_tool) /\
    map score cs = [0; 0.4 + 0.4 + 0.2 * ((0.2 - 0.1) / (0.4 - 0.1)); 0.2 + 0.2 + 0.2].
Proof.
  destruct (score_candidates census_tool age_25_54 (sa_data census_tool))
    as [cs|e] eqn:H; [|vm_compute in H; discriminate].
  exists cs. split; [reflexivity|].
  pose proof (proj1 (score_is_weighted_sum _ _ _ _ H)) as E.
  split; [exact E|]. rewrite E. vm_compute. reflexivity.
Defined.

(** ** Degenerate signals *)


Lemma with_score_In s candidates c :
  In c (with_score s candidates) ->
  exists a, In a candidates /\ c = {| row := a; score := s a |}.
Proof.
  unfold with_score. rewrite in_map_iff. intros (a & <- & Ha). eauto.
Qed.



(** Away from flat columns the formula still leaves [[0, 1]] when a value
    of the column is NaN (the density of an area of size zero) or when
    [max - min] overflows. *)
Example normalize_undefined_value : normalize [1000; nan; 3000] = [0; nan; 1].
Proof. vm_compute. reflexivity. Qed.

Example normalize_overflow : normalize [1.5e308; -1.5e308; 0] = [nan; 0; 0].
Proof. vm_compute. reflexivity. Qed.

(** ** Catchment summaries *)

(** C8. When the selected and filtered areas are none, the population sums
    to 0, the count is 0 and each mean is NaN, the undefined marker, not
    zero. *)
Theorem summary_of_nothing (t : MarketResearchTool) (business_name : option string)
  (demographic_filters : option (gmap string float)) :
  apply_filters demographic_filters (select_catchment t business_name) = [] ->
  let s := get_catchment_summary t business_name demographic_filters in
  s = empty_summary /\
  s_total_population s = 0 /\ s_num_areas s = 0%nat /\
  is_nan (s_avg_income s) = true /\ (s_avg_income s =? 0) = false /\
  is_nan (s_avg_age s) = true /\ (s_avg_age s =? 0) = false /\
  is_nan (s_avg_distance s) = true /\ (s_avg_distance s =? 0) = false.
Proof.
  intros E s. unfold s, get_catchment_summary. rewrite E.
  repeat split; reflexivity.
Qed.

Lemma summary_of_nothing_witness :
  apply_filters (income_above 90000) (select_catchment census_tool (Some "F"%string)) = [] /\
  get_catchment_summary census_tool (Some "F"%string) (income_above 90000) =
    empty_summary.
Proof.
  assert (H : apply_filters (income_above 90000)
                (select_catchment census_tool (Some "F"%string)) = [])
    by (vm_compute; reflexivity).
  split; [exact H|].
  exact (proj1 (summary_of_nothing census_tool (Some "F"%string)
                  (income_above 90000) H)).
Defined.

Lemma filter_none {A} (p : A -> bool) (l : list A) :
  (forall x, In x l -> p x = false) -> List.filter p l = [].
Proof.
  induction l as [|x l IH]; intros H; [reflexivity|]. cbn.
  rewrite (H x (in_eq x l)). apply IH. intros y Hy. apply H. now right.
Qed.

Lemma apply_filters_nil demographic_filters :
  apply_filters demographic_filters [] = [].
Proof.
  unfold apply_filters.
  destruct (dict_or_empty demographic_filters !! "min_income"%string),
    (dict_or_empty demographic_filters !! "max_income"%string); reflexivity.
Qed.

(** C9, as stated, fails for the empty name: no facility of [census_tool]
    bears it, and the summary covers the three areas. *)
Lemma unknown_name_counterexample :
  ~ unknown_name_claim census_tool "" /\
  s_num_areas (get_catchment_summary census_tool (Some ""%string) None) = 3%nat.
Proof.
  split; [|vm_compute; reflexivity].
  intros H.
  assert (E : get_catchment_summary census_tool (Some ""%string) None = empty_summary).
  { apply H. intros g Hg. vm_compute in Hg. destruct Hg as [<-|[]]. discriminate. }
  apply (f_equal s_num_areas) in E. vm_compute in E. discriminate.
Qed.

(** C9 (amended).  After any sequence of mutations, a non-empty name borne
    by no facility of the Registry selects no area, whatever the filters:
    the call is not an error and returns the summary of no row. *)
Theorem unknown_name_summary (columns : list string) (df : list Area)
  (ms : list mutation) (n : string)
  (demographic_filters : option (gmap string float)) :
  let t := run (init columns df) ms in
  n <> ""%string ->
  (forall g, In g (businesses t) -> name g <> n) ->
  select_catchment t (Some n) = [] /\
  get_catchment_summary t (Some n) demographic_filters = empty_summary.
Proof.
  intros t Hn Hunknown.
  assert (E : select_catchment t (Some n) = []).
  { unfold select_catchment. destruct (String.eqb_spec n ""); [contradiction|].
    apply filter_none. intros a Ha. unfold assigned_to.
    destruct (assigned_business a) as [m|] eqn:Hm; [|reflexivity].
    destruct (consistent_assigned t a m) as (g & Hg & Hname); auto.
    { apply run_consistent, init_consistent. }
    destruct (String.eqb_spec m n); [|reflexivity].
    subst. exfalso. now apply (Hunknown g Hg). }
  split; [exact E|].
  unfold get_catchment_summary. rewrite E, apply_filters_nil. reflexivity.
Qed.

Lemma unknown_name_summary_witness :
  "Nowhere"%string <> ""%string /\
  (forall g, In g (businesses census_tool) -> name g <> "Nowhere"%string) /\
  get_catchment_summary census_tool (Some "Nowhere"%string) None = empty_summary.
Proof.
  assert (Hn : "Nowhere"%string <> ""%string) by discriminate.
  assert (Hu : forall g, In g (businesses census_tool) -> name g <> "Nowhere"%string).
  { intros g Hg. vm_compute in Hg. destruct Hg as [<-|[]]. discriminate. }
  split; [exact Hn|]. split; [exact Hu|].
  exact (proj2 (unknown_name_summary
                  ["population_density"; "pop_25_54"]%string census_rows
                  [Add "F" 0 0] "Nowhere" None Hn Hu)).
Defined.

(** C10. An area whose average income is NaN fails both comparisons: it is
    dropped from the summarized rows as soon as [min_income] or [max_income]
    is supplied, and kept when neither is. *)
Theorem income_filter_drops_undefined (t : MarketResearchTool)
  (business_name : option string)
  (demographic_filters : option (gmap string float)) (a : Area) :
  In a (select_catchment t business_name) ->
  is_nan (avg_income a) = true ->
  let filters := dict_or_empty demographic_filters in
  let kept := apply_filters demographic_filters (select_catchment t business_name) in
  (is_Some (filters !! "min_income"%string) \/
   is_Some (filters !! "max_income"%string) -> ~ In a kept) /\
  (filters !! "min_income"%string = None ->
   filters !! "max_income"%string = None -> In a kept).
Proof.
  intros Ha Hnan filters kept. unfold kept, apply_filters. fold filters.
  split.
  - intros [[v Hv]|[v Hv]]; rewrite Hv.
    + destruct (filters !! "max_income"%string);
        rewrite ?filter_In; intros H;
        repeat match type of H with _ /\ _ => destruct H as [H ?] end;
        match goal with
        | E : (_ <=? avg_income a) = true |- _ =>
            rewrite (F64.leb_nan_r _ _ Hnan) in E; discriminate
        end.
    + rewrite filter_In. intros [_ E].
      rewrite (F64.leb_nan_l _ _ Hnan) in E. discriminate.
  - intros -> ->. exact Ha.
Qed.

Lemma income_filter_drops_undefined_witness :
  In no_income_area (select_catchment income_tool None) /\
  is_nan (avg_income no_income_area) = true /\
  ~ In no_income_area
      (apply_filters (income_above 0) (select_catchment income_tool None)) /\
  In no_income_area (apply_filters None (select_catchment income_tool None)).
Proof.
  assert (Ha : In no_income_area (select_catchment income_tool None))
    by (vm_compute; right; left; reflexivity).
  assert (Hn : is_nan (avg_income no_income_area) = true) by reflexivity.
  split; [exact Ha|]. split; [exact Hn|]. split.
  - apply (proj1 (income_filter_drops_undefined income_tool None (income_above 0)
                    no_income_area Ha Hn)).
    left. vm_compute. eauto.
  - apply (proj2 (income_filter_drops_undefined income_tool None None
                    no_income_area Ha Hn)); reflexivity.
Defined.

(** Scenario E of the specification: a catchment with incomes of 55000 and
    70000, summarized between 50000 and 60000. *)
Example scenario_e :
  let t := run (init [] [with_income (area_at "S1" 0 0.1) 55000;
                         with_income (area_at "S2" 0 0.2) 70000])
               [Add "F" 0 0] in
  let s := get_catchment_summary t (Some "F"%string)
             (Some {[ "min_income"%string := 50000;
                      "max_income"%string := 60000 ]}) in
  s_num_areas s = 1%nat /\ s_total_population s = 400 /\ s_avg_income s = 55000.
Proof. vm_compute. repeat split; reflexivity. Qed.

(** * Further properties *)

(** ** The area table under mutations *)

Lemma reset_reset a : reset_assignment (reset_assignment a) = reset_assignment a.
Proof. reflexivity. Qed.

Lemma assign_rows_reset bs rows :
  map reset_assignment (fst (assign_rows bs rows)) = map reset_assignment rows.
Proof.
  induction rows as [|a rows IH]; [reflexivity|]. cbn [assign_rows].
  destruct (nearest (sa_coords a) bs); [|reflexivity].
  cbn [fst map]. now rewrite IH.
Qed.

Lemma map_reset_reset rows :
  map reset_assignment (map reset_assignment rows) = map reset_assignment rows.
Proof. rewrite map_map. reflexivity. Qed.

Lemma reset_recalculate t :
  map reset_assignment (sa_data (fst (_recalculate_catchments t))) =
  map reset_assignment (sa_data t).
Proof.
  unfold _recalculate_catchments.
  destruct (businesses t) as [|b bs]; [apply map_reset_reset|].
  destruct (snd (assign_rows (b :: bs) (map reset_assignment (sa_data t))));
    cbn [fst sa_data]; now rewrite assign_rows_reset, map_reset_reset.
Qed.

Lemma columns_recalculate t :
  extra_columns (fst (_recalculate_catchments t)) = extra_columns t.
Proof.
  unfold _recalculate_catchments.
  destruct (businesses t) as [|b bs]; [reflexivity|].
  now destruct (snd (assign_rows (b :: bs) (map reset_assignment (sa_data t)))).
Qed.

Lemma apply_mutation_table t m :
  extra_columns (apply_mutation t m) = extra_columns t /\
  map reset_assignment (sa_data (apply_mutation t m)) =
    map reset_assignment (sa_data t).
Proof.
  destruct m; cbn [apply_mutation]; rewrite ?add_business_state;
    unfold remove_business;
    now rewrite columns_recalculate, reset_recalculate.
Qed.

Lemma run_table t ms :
  extra_columns (run t ms) = extra_columns t /\
  map reset_assignment (sa_data (run t ms)) = map reset_assignment (sa_data t).
Proof.
  unfold run. revert t. induction ms as [|m ms IH]; intros t; [now split|].
  cbn [fold_left]. destruct (IH (apply_mutation t m)) as [-> ->].
  apply apply_mutation_table.
Qed.

(** A column that the reset leaves alone is the same in two tables that
    agree once reset. *)
Lemma map_through_reset {B} (f : Area -> B) rows rows' :
  (forall a, f (reset_assignment a) = f a) ->
  map reset_assignment rows = map reset_assignment rows' ->
  map f rows = map f rows'.
Proof.
  intros Hf H.
  transitivity (map f (map reset_assignment rows)).
  { rewrite map_map. apply map_ext. intros a. now rewrite Hf. }
  rewrite H, map_map. apply map_ext. intros a. now rewrite Hf.
Qed.

(** X1.  Adding and removing businesses never touches the area table beyond
    its two assignment columns: after any sequence of mutations, raising
    ones included, the table holds the same rows in the same order, equal to
    the former ones once both are reset, and the same extra columns. *)
Theorem mutations_keep_table (t : MarketResearchTool) (ms : list mutation) :
  extra_columns (run t ms) = extra_columns t /\
  map reset_assignment (sa_data (run t ms)) = map reset_assignment (sa_data t) /\
  length (sa_data (run t ms)) = length (sa_data t) /\
  map SA1 (sa_data (run t ms)) = map SA1 (sa_data t) /\
  map sa_coords (sa_data (run t ms)) = map sa_coords (sa_data t).
Proof.
  destruct (run_table t ms) as [Hc Hr].
  split; [exact Hc|]. split; [exact Hr|]. split; [|split].
  - rewrite <- (length_map reset_assignment (sa_data (run t ms))), Hr.
    apply length_map.
  - now apply map_through_reset.
  - now apply map_through_reset.
Qed.


(** ** The Registry under removal *)

Lemma registry_filter n bs :
  map entry (List.filter (fun b => negb (String.eqb (name b) n)) bs) =
  List.filter (fun e => negb (String.eqb (fst (fst e)) n)) (map entry bs).
Proof.
  induction bs as [|b bs IH]; [reflexivity|]. cbn [List.filter map].
  change (fst (fst (entry b))) with (name b).
  destruct (negb (String.eqb (name b) n)); cbn [map]; now rewrite IH.
Qed.

Lemma filter_all {A} (p : A -> bool) (l : list A) :
  (forall x, In x l -> p x = true) -> List.filter p l = l.
Proof.
  induction l as [|x l IH]; intros H; [reflexivity|]. cbn.
  rewrite (H x (in_eq x l)). f_equal. apply IH. intros y Hy. apply H. now right.
Qed.

Lemma remove_business_entries t n :
  registry (fst (remove_business t n)) =
  List.filter (fun e => negb (String.eqb (fst (fst e)) n)) (registry t).
Proof.
  unfold remove_business. rewrite registry_recalculate. unfold registry.
  cbn [businesses]. apply registry_filter.
Qed.

(** X3.  [remove_business] removes every business that bears the name,
    duplicates included, and keeps the others in their order, whether the
    recomputation returns or raises; no business of that name is left, and a
    name that no business bears leaves the Registry as it was. *)
Theorem remove_business_registry (t : MarketResearchTool) (n : string) :
  registry (fst (remove_business t n)) =
    List.filter (fun e => negb (String.eqb (fst (fst e)) n)) (registry t) /\
  (forall g, In g (businesses (fst (remove_business t n))) -> name g <> n) /\
  ((forall g, In g (businesses t) -> name g <> n) ->
   registry (fst (remove_business t n)) = registry t).
Proof.
  pose proof (remove_business_entries t n) as H.
  split; [exact H|]. split.
  - intros g Hg E. apply (in_map entry) in Hg. fold (registry (fst (remove_business t n))) in Hg.
    rewrite H in Hg. apply filter_In in Hg. destruct Hg as [_ Hn].
    change (fst (fst (entry g))) with (name g) in Hn.
    rewrite E, String.eqb_refl in Hn. discriminate.
  - intros Hfresh. rewrite H. apply filter_all. intros e He.
    unfold registry in He. apply in_map_iff in He. destruct He as (g & <- & Hg).
    change (fst (fst (entry g))) with (name g).
    destruct (String.eqb_spec (name g) n) as [E|_]; [|reflexivity].
    now apply Hfresh in E.
Qed.

(** ** Recomputing twice *)

Lemma entry_inj b b' :
  entry b = entry b' -> name b = name b' /\ lat b = lat b' /\ lon b = lon b'.
Proof. unfold entry. intros [= -> -> ->]. auto. Qed.

Lemma scan_entries sa bs bs' st :
  map entry bs = map entry bs' -> scan sa bs st = scan sa bs' st.
Proof.
  revert bs' st. induction bs as [|b bs IH]; intros [|b' bs'] st E;
    try discriminate; [reflexivity|].
  cbn [map] in E.
  assert (Eb : entry b = entry b') by congruence.
  assert (E' : map entry bs = map entry bs') by congruence.
  destruct (entry_inj _ _ Eb) as (En & Ela & Elo). cbn [scan].
  unfold biz_coords. rewrite En, Ela, Elo.
  destruct (euclidean sa (lat b', lon b')); [now apply IH | reflexivity].
Qed.

Lemma assign_rows_entries bs bs' rows :
  map entry bs = map entry bs' -> assign_rows bs rows = assign_rows bs' rows.
Proof.
  intros E. induction rows as [|a rows IH]; [reflexivity|]. cbn [assign_rows].
  unfold nearest. rewrite (scan_entries _ bs bs' _ E), IH. reflexivity.
Qed.

Lemma with_catchment_entries_eq rows bs bs' :
  map entry bs = map entry bs' ->
  map (with_catchment rows) bs = map (with_catchment rows) bs'.
Proof.
  revert bs'. induction bs as [|b bs IH]; intros [|b' bs'] E;
    try discriminate; [reflexivity|].
  cbn [map] in *.
  assert (Eb : entry b = entry b') by congruence.
  assert (E' : map entry bs = map entry bs') by congruence.
  destruct (entry_inj _ _ Eb) as (En & Ela & Elo).
  rewrite (IH bs' E'). f_equal.
  unfold with_catchment. now rewrite En, Ela, Elo.
Qed.

(** A recomputation that returns depends on the state through the extra
    columns, the reset rows and the entries of the Registry only. *)
Lemma recalculate_ext t t' :
  extra_columns t = extra_columns t' ->
  map reset_assignment (sa_data t) = map reset_assignment (sa_data t') ->
  map entry (businesses t) = map entry (businesses t') ->
  businesses t = businesses t' \/ snd (_recalculate_catchments t') = Ok tt ->
  _recalculate_catchments t = _recalculate_catchments t'.
Proof.
  intros Hc Hr He Hb. unfold _recalculate_catchments in *.
  rewrite Hc, Hr.
  destruct (businesses t) as [|b bs], (businesses t') as [|b' bs'];
    try discriminate; [reflexivity|].
  rewrite (assign_rows_entries _ _ _ He).
  destruct (snd (assign_rows (b' :: bs') (map reset_assignment (sa_data t'))))
    as [[]|e] eqn:Es; cbn [fst snd] in *.
  - now rewrite (with_catchment_entries_eq _ _ _ He).
  - destruct Hb as [Hb|Hb]; [now rewrite Hb | discriminate].
Qed.

Lemma recalculate_twice t :
  _recalculate_catchments (fst (_recalculate_catchments t)) =
  _recalculate_catchments t.
Proof.
  apply recalculate_ext.
  - apply columns_recalculate.
  - apply reset_recalculate.
  - apply registry_recalculate.
  - unfold _recalculate_catchments.
    destruct (businesses t) as [|b bs]; [now left|].
    destruct (snd (assign_rows (b :: bs) (map reset_assignment (sa_data t))))
      as [[]|e]; cbn [fst snd businesses]; [now right | now left].
Qed.

(** X4.  Recomputing is idempotent: a second recomputation right after the
    first leaves the same state, assignments, distances and catchment lists
    alike, and ends the same way, by returning or by raising. *)
Theorem recalculate_idempotent (t : MarketResearchTool) :
  fst (_recalculate_catchments (fst (_recalculate_catchments t))) =
    fst (_recalculate_catchments t) /\
  snd (_recalculate_catchments (fst (_recalculate_catchments t))) =
    snd (_recalculate_catchments t).
Proof.
  assert (H : _recalculate_catchments (fst (_recalculate_catchments t)) =
              _recalculate_catchments t).
  { apply recalculate_ext.
    - apply columns_recalculate.
    - apply reset_recalculate.
    - apply registry_recalculate.
    - unfold _recalculate_catchments.
      destruct (businesses t) as [|b bs]; [now left|].
      destruct (snd (assign_rows (b :: bs) (map reset_assignment (sa_data t))))
        as [[]|e]; cbn [fst snd businesses]; [now right | now left]. }
  now rewrite H.
Qed.

(** A state reached by mutations is the one its own recomputation leaves. *)
Lemma run_settled columns df ms :
  fst (_recalculate_catchments (run (init columns df) ms)) = run (init columns df) ms.
Proof.
  destruct ms as [|m ms] using rev_ind.
  - unfold run, _recalculate_catchments. cbn [fold_left init businesses sa_data extra_columns fst].
    now rewrite map_reset_reset.
  - unfold run. rewrite fold_left_app. cbn [fold_left].
    fold (run (init columns df) ms).
    destruct m; cbn [apply_mutation]; rewrite ?add_business_state;
      unfold remove_business; now rewrite recalculate_twice.
Qed.

Lemma computable_returns t : computable t -> snd (_recalculate_catchments t) = Ok tt.
Proof. apply recalculate_rows. Qed.

(** X5.  Adding a business under a name that no business bears and removing
    it again restores the state exactly, assignments, distances and
    catchment lists included, whatever the coordinates of the business
    added, even ones on which the addition raises; this holds in every
    state reached by mutations in which the distance of every area to every
    business is defined. *)
Theorem add_then_remove_restores (columns : list string) (df : list Area)
  (ms : list mutation) (n : string) (la lo : float) :
  let t := run (init columns df) ms in
  computable t ->
  (forall g, In g (businesses t) -> name g <> n) ->
  fst (remove_business (fst (add_business t n la lo)) n) = t.
Proof.
  intros t Hc Hfresh. unfold remove_business.
  transitivity (fst (_recalculate_catchments t)); [|apply run_settled]. f_equal.
  apply recalculate_ext; cbn [extra_columns sa_data businesses].
  - rewrite add_business_state, columns_recalculate. reflexivity.
  - rewrite add_business_state, reset_recalculate. reflexivity.
  - rewrite registry_filter.
    change (map entry (businesses (fst (add_business t n la lo))))
      with (registry (fst (add_business t n la lo))).
    rewrite add_business_registry, List.filter_app. cbn [List.filter fst].
    rewrite String.eqb_refl. cbn [negb]. rewrite app_nil_r.
    apply filter_all. intros e He. unfold registry in He.
    apply in_map_iff in He. destruct He as (g & <- & Hg).
    change (fst (fst (entry g))) with (name g).
    destruct (String.eqb_spec (name g) n) as [E|_]; [|reflexivity].
    now apply Hfresh in E.
  - right. now apply computable_returns.
Qed.

Lemma add_then_remove_restores_witness :
  let t := run (init [] [area_at "A1" (-37.8) 145.0; area_at "A2" (-37.9) 145.0])
             [Add "F1" (-37.8) 145.0] in
  computable t /\
  (forall g, In g (businesses t) -> name g <> "N"%string) /\
  snd (add_business t "N" nan nan) = Raise ValueError /\
  fst (remove_business (fst (add_business t "N" nan nan)) "N") = t.
Proof.
  cbv zeta.
  assert (Hc : computable
                 (run (init [] [area_at "A1" (-37.8) 145.0; area_at "A2" (-37.9) 145.0])
                    [Add "F1" (-37.8) 145.0])).
  { intros a g Ha Hg. vm_compute in Ha, Hg.
    destruct Ha as [<-|[<-|[]]]; destruct Hg as [<-|[]];
      eexists; vm_compute; reflexivity. }
  assert (Hn : forall g,
             In g (businesses
                     (run (init [] [area_at "A1" (-37.8) 145.0; area_at "A2" (-37.9) 145.0])
                        [Add "F1" (-37.8) 145.0])) -> name g <> "N"%string).
  { intros g Hg. vm_compute in Hg. destruct Hg as [<-|[]]. discriminate. }
  split; [exact Hc|]. split; [exact Hn|]. split; [vm_compute; reflexivity|].
  exact (add_then_remove_restores [] _ [Add "F1" (-37.8) 145.0] "N" nan nan Hc Hn).
Defined.

(** ** Stored distances *)

Lemma zero_leb_nonnegative x : F64.nonnegative x -> (0 <=? x) = true.
Proof.
  unfold F64.nonnegative. rewrite FloatAxioms.leb_spec.
  change (Prim2SF 0) with (S754_zero false).
  destruct (Prim2SF x) as [s|[]| |[] m e]; try discriminate; reflexivity.
Qed.

Lemma euclidean_nonnegative u v d : euclidean u v = Ok d -> F64.nonnegative d.
Proof.
  unfold euclidean.
  destruct (is_finite (fst u - fst v)) eqn:Ex; [|discriminate].
  destruct (is_finite (snd u - snd v)) eqn:Ey; [|discriminate].
  cbn [andb]. intros [= <-]. now apply nrm2_nonnegative.
Qed.

(** The distance of a fresh row is [+infinity] or a distance that
    [euclidean] returned. *)
Lemma fresh_row_nonnegative bs a :
  fresh_row bs a -> F64.nonnegative (distance_to_business a).
Proof.
  intros (r & Hr & _ & Hd). unfold nearest in Hr.
  apply scan_pure in Hr. destruct Hr as [-> Hall]. rewrite Hd.
  destruct (scan_spec (dist_of (sa_coords a)) bs (infinity, None))
    as [[E _]|(pre & b & post & Eb & E & _)]; rewrite E; cbn [fst].
  - reflexivity.
  - apply (euclidean_nonnegative (sa_coords a) (biz_coords b)).
    apply Hall. rewrite Eb. apply in_elt.
Qed.

Lemma fresh_row_none bs a :
  fresh_row bs a -> assigned_business a = None -> unassigned a.
Proof.
  intros (r & Hr & Ha & Hd) Hn. split; [exact Hn|].
  unfold nearest in Hr. apply scan_pure in Hr. destruct Hr as [-> _].
  rewrite Hd. apply found_none_infinity. now rewrite <- Ha.
Qed.

Lemma consistent_nonnegative t a :
  consistent t -> In a (sa_data t) -> F64.nonnegative (distance_to_business a).
Proof.
  intros [H _] Ha. destruct (H a Ha) as [[_ ->]|Hf]; [reflexivity|].
  now apply (fresh_row_nonnegative (businesses t)).
Qed.

(** X6.  In every state reached by mutations the distance stored for an
    area is a number that is not negative: it is never NaN, and it is
    [+infinity] when the area is unassigned. *)
Theorem stored_distance_nonnegative (columns : list string) (df : list Area)
  (ms : list mutation) :
  forall a, In a (sa_data (run (init columns df) ms)) ->
    is_nan (distance_to_business a) = false /\
    (0 <=? distance_to_business a) = true /\
    (assigned_business a = None -> distance_to_business a = infinity).
Proof.
  intros a Ha.
  pose proof (run_consistent _ ms (init_consistent columns df)) as Hc.
  pose proof (consistent_nonnegative _ a Hc Ha) as Hn.
  split; [now apply F64.nonnegative_number|].
  split; [now apply zero_leb_nonnegative|].
  intros Hnone. destruct (proj1 Hc a Ha) as [[_ E]|Hf]; [exact E|].
  exact (proj2 (fresh_row_none _ _ Hf Hnone)).
Qed.

Lemma stored_distance_nonnegative_witness :
  In scenario_row (sa_data scenario_tool) /\
  (0 <=? distance_to_business scenario_row) = true.
Proof.
  assert (H : In scenario_row (sa_data scenario_tool))
    by (vm_compute; right; left; reflexivity).
  split; [exact H|].
  exact (proj1 (proj2 (stored_distance_nonnegative [] _ _ scenario_row H))).
Defined.

(** ** An area at the place of a business *)



Lemma recalculate_fresh t t' :
  _recalculate_catchments t = (t', Ok tt) ->
  forall a, In a (sa_data t') -> fresh_row (businesses t') a.
Proof.
  intros H. destruct (recalculate_rows t) as (_ & Hok & _).
  rewrite H in Hok. exact (Hok eq_refl).
Qed.



(** ** Catchment lists *)

Lemma recalculate_returned t t' :
  _recalculate_catchments t = (t', Ok tt) ->
  businesses t' = map (with_catchment (sa_data t')) (businesses t).
Proof.
  unfold _recalculate_catchments.
  destruct (businesses t) as [|b bs]; [now intros [= <-]|].
  destruct (snd (assign_rows (b :: bs) (map reset_assignment (sa_data t))));
    [now intros [= <-] | discriminate].
Qed.

(** X8.  After a recomputation that returned, the catchment list of each
    business holds the SA1 codes of the areas assigned to its name, in table
    order, and the summary asked for that name, when the name is not empty,
    counts as many areas as the list is long. *)
Theorem summary_counts_catchment (t t' : MarketResearchTool) (g : Business) :
  _recalculate_catchments t = (t', Ok tt) ->
  In g (businesses t') ->
  catchment g = map SA1 (List.filter (assigned_to (name g)) (sa_data t')) /\
  (name g <> ""%string ->
   s_num_areas (get_catchment_summary t' (Some (name g)) None) =
     length (catchment g)).
Proof.
  intros Hrun Hg. rewrite (recalculate_returned _ _ Hrun) in Hg.
  apply in_map_iff in Hg. destruct Hg as (b & <- & _).
  split; [reflexivity|]. intros Hn.
  unfold get_catchment_summary, select_catchment, with_catchment in *.
  cbn [name catchment] in *.
  destruct (String.eqb_spec (name b) ""); [contradiction|].
  cbn. now rewrite length_map.
Qed.

Lemma summary_counts_catchment_witness :
  exists t' g,
    _recalculate_catchments scenario_tool = (t', Ok tt) /\
    In g (businesses t') /\
    catchment g = ["A1"; "A2"]%string /\
    s_num_areas (get_catchment_summary t' (Some "F2"%string) None) = 2%nat.
Proof.
  exists (fst (_recalculate_catchments scenario_tool)),
    (with_catchment (sa_data scenario_tool) (facility "F2" (-37.9) 145.0)).
  assert (Hrun : _recalculate_catchments scenario_tool =
                 (fst (_recalculate_catchments scenario_tool), Ok tt))
    by (vm_compute; reflexivity).
  assert (Hg : In (with_catchment (sa_data scenario_tool) (facility "F2" (-37.9) 145.0))
                 (businesses (fst (_recalculate_catchments scenario_tool))))
    by (vm_compute; left; reflexivity).
  split; [exact Hrun|]. split; [exact Hg|].
  destruct (summary_counts_catchment _ _ _ Hrun Hg) as [Hc Hs].
  split; [rewrite Hc; vm_compute; reflexivity|].
  change (Some "F2"%string)
    with (Some (name (with_catchment (sa_data scenario_tool)
                        (facility "F2" (-37.9) 145.0)))).
  rewrite Hs by discriminate. rewrite Hc. vm_compute. reflexivity.
Defined.

Lemma list_sum_cons n l : list_sum (n :: l) = (n + list_sum l)%nat.
Proof. reflexivity. Qed.

Lemma list_sum_add {A} (f h : A -> nat) (l : list A) :
  list_sum (map (fun x => (f x + h x)%nat) l) =
  (list_sum (map f l) + list_sum (map h l))%nat.
Proof.
  induction l as [|x l IH]; [reflexivity|]. cbn [map].
  rewrite !list_sum_cons, IH. lia.
Qed.

Lemma list_sum_count {A} (q : A -> bool) (l : list A) :
  list_sum (map (fun x => if q x then 1%nat else 0%nat) l) = length (List.filter q l).
Proof.
  induction l as [|x l IH]; [reflexivity|]. cbn [map List.filter].
  rewrite list_sum_cons, IH. now destruct (q x).
Qed.

(** The sizes of the filtered tables, counted business by business or row
    by row. *)
Lemma catchment_sizes (p : Business -> Area -> bool) bs rows :
  list_sum (map (fun g => length (List.filter (p g) rows)) bs) =
  list_sum (map (fun a => length (List.filter (fun g => p g a) bs)) rows).
Proof.
  induction rows as [|a rows IH]; cbn [List.filter map length].
  - induction bs as [|b bs IHb]; [reflexivity | exact IHb].
  - rewrite list_sum_cons, <- IH, <- list_sum_count, <- list_sum_add.
    f_equal. apply map_ext. intros g. now destruct (p g a).
Qed.

Lemma count_name m bs :
  List.NoDup (map name bs) -> In m (map name bs) ->
  length (List.filter (fun g => String.eqb m (name g)) bs) = 1%nat.
Proof.
  induction bs as [|b bs IH]; cbn [map]; intros Hnd Hin; [destruct Hin|].
  apply NoDup_cons_iff in Hnd. destruct Hnd as [Hb Hnd]. cbn [List.filter].
  destruct (String.eqb_spec m (name b)) as [->|Hne].
  - cbn [length]. f_equal. rewrite filter_none; [reflexivity|].
    intros g Hg. destruct (String.eqb_spec (name b) (name g)) as [E|]; [|reflexivity].
    exfalso. apply Hb. rewrite E. now apply in_map.
  - destruct Hin as [E|Hin]; [now symmetry in E|]. now apply IH.
Qed.

(** X9.  After a recomputation that returned, if no two businesses bear the
    same name, the catchment lists partition the assigned areas: their
    lengths add up to the number of areas that have an assigned business. *)
Theorem catchments_partition (t t' : MarketResearchTool) :
  _recalculate_catchments t = (t', Ok tt) ->
  List.NoDup (map name (businesses t')) ->
  list_sum (map (fun g => length (catchment g)) (businesses t')) =
  length (List.filter is_assigned (sa_data t')).
Proof.
  intros Hrun Hnd.
  pose proof (recalculate_fresh _ _ Hrun) as Hf.
  transitivity
    (list_sum (map (fun g => length (List.filter (assigned_to (name g)) (sa_data t')))
                 (businesses t'))).
  { apply f_equal, map_ext_in. intros g Hg.
    rewrite (recalculate_returned _ _ Hrun) in Hg. apply in_map_iff in Hg.
    destruct Hg as (b & <- & _). cbn [with_catchment catchment name].
    apply length_map. }
  rewrite (catchment_sizes (fun g => assigned_to (name g))), <- list_sum_count.
  apply f_equal, map_ext_in. intros a Ha. unfold is_assigned, assigned_to.
  destruct (assigned_business a) as [m|] eqn:Hm.
  - apply count_name; [exact Hnd|].
    destruct (fresh_row_spec _ _ (Hf a Ha)) as (_ & _ & Hfirst & _).
    destruct (Hfirst m Hm) as (pre & b & post & E & Hb & _).
    rewrite E, map_app. apply in_or_app. right. left. exact Hb.
  - now rewrite filter_none.
Qed.

Lemma catchments_partition_witness :
  exists t',
    _recalculate_catchments tie_tool = (t', Ok tt) /\
    List.NoDup (map name (businesses t')) /\
    list_sum (map (fun g => length (catchment g)) (businesses t')) = 1%nat.
Proof.
  exists (fst (_recalculate_catchments tie_tool)).
  assert (Hrun : _recalculate_catchments tie_tool =
                 (fst (_recalculate_catchments tie_tool), Ok tt))
    by (vm_compute; reflexivity).
  assert (Hnd : List.NoDup (map name (businesses (fst (_recalculate_catchments tie_tool))))).
  { vm_compute. repeat constructor; cbn; intuition discriminate. }
  split; [exact Hrun|]. split; [exact Hnd|].
  rewrite (catchments_partition _ _ Hrun Hnd). vm_compute. reflexivity.
Defined.

(** ** Ranking the candidates *)

Lemma nlargest_ranked n cs : nlargest n cs = firstn (Z.to_nat n) (ranked cs).
Proof. reflexivity. Qed.

Lemma insert_desc_perm c l : Permutation (insert_desc c l) (c :: l).
Proof.
  induction l as [|d l IH]; cbn [insert_desc]; [reflexivity|].
  destruct (score d <? score c); [reflexivity|].
  rewrite IH. apply perm_swap.
Qed.

Lemma sort_perm cs acc :
  Permutation (fold_left (fun acc c => insert_desc c acc) cs acc) (cs ++ acc).
Proof.
  revert acc. induction cs as [|c cs IH]; intros acc; cbn [fold_left]; [reflexivity|].
  rewrite IH, insert_desc_perm. cbn [app]. symmetry. apply Permutation_middle.
Qed.

Lemma filter_split_perm {A} (p : A -> bool) (l : list A) :
  Permutation (List.filter (fun x => negb (p x)) l ++ List.filter p l) l.
Proof.
  induction l as [|x l IH]; [reflexivity|]. cbn [List.filter].
  destruct (p x); cbn [negb app].
  - rewrite <- Permutation_middle. now constructor.
  - now constructor.
Qed.

Lemma ranked_perm cs : Permutation (ranked cs) cs.
Proof.
  unfold ranked. rewrite sort_perm, app_nil_r.
  apply (filter_split_perm (fun c => is_nan (score c))).
Qed.

Lemma insert_desc_sorted c l :
  is_nan (score c) = false ->
  Forall (fun d => is_nan (score d) = false) l ->
  StronglySorted not_below l -> StronglySorted not_below (insert_desc c l).
Proof.
  intros Hc Hl Hs. induction Hs as [|d l Hs IH Hd]; cbn [insert_desc].
  - repeat constructor.
  - apply List.Forall_cons_iff in Hl. destruct Hl as [Hnd Hl].
    destruct (score d <? score c) eqn:E.
    + constructor; [now constructor|]. constructor.
      * unfold not_below. destruct (score c <? score d) eqn:E'; [|reflexivity].
        apply F64.ltb_leb in E'. now rewrite (F64.ltb_not_leb _ _ E) in E'.
      * rewrite List.Forall_forall in Hd, Hl |- *. intros e He. unfold not_below.
        destruct (score c <? score e) eqn:E'; [|reflexivity].
        pose proof (F64.leb_total _ _ Hnd (Hl e He) (Hd e He)) as Hed.
        pose proof (F64.leb_ltb_trans _ _ _ Hed E) as Hec.
        apply F64.ltb_leb in E'. now rewrite (F64.ltb_not_leb _ _ Hec) in E'.
    + constructor; [now apply IH|].
      rewrite (insert_desc_perm c l). constructor; [exact E | exact Hd].
Qed.

Lemma sort_sorted cs acc :
  Forall (fun d => is_nan (score d) = false) cs ->
  Forall (fun d => is_nan (score d) = false) acc ->
  StronglySorted not_below acc ->
  StronglySorted not_below (fold_left (fun acc c => insert_desc c acc) cs acc) /\
  Forall (fun d => is_nan (score d) = false)
    (fold_left (fun acc c => insert_desc c acc) cs acc).
Proof.
  revert acc. induction cs as [|c cs IH]; intros acc Hcs Hacc Hs; cbn [fold_left].
  - now split.
  - apply List.Forall_cons_iff in Hcs. destruct Hcs as [Hc Hcs].
    apply IH; [exact Hcs| |now apply insert_desc_sorted].
    rewrite (insert_desc_perm c acc). now constructor.
Qed.

Lemma sorted_app {A} (R : A -> A -> Prop) (l l' : list A) :
  StronglySorted R l -> StronglySorted R l' ->
  (forall x y, In x l -> In y l' -> R x y) ->
  StronglySorted R (l ++ l').
Proof.
  intros Hl Hl' H. induction Hl as [|x l Hl IH Hx]; [exact Hl'|].
  cbn [app]. constructor.
  - apply IH. intros u v Hu Hv. apply H; [now right | exact Hv].
  - apply List.Forall_app. split; [exact Hx|].
    apply List.Forall_forall. intros y Hy. apply H; [now left | exact Hy].
Qed.

Lemma sorted_unscored l :
  Forall (fun d => is_nan (score d) = true) l -> StronglySorted not_below l.
Proof.
  induction 1 as [|x l Hx Hl IH]; constructor; [exact IH|].
  eapply List.Forall_impl; [|exact Hl]. intros y Hy. now apply F64.ltb_nan_r.
Qed.

Lemma ranked_sorted cs : StronglySorted not_below (ranked cs).
Proof.
  unfold ranked. apply sorted_app.
  - apply sort_sorted; [|constructor|constructor].
    apply List.Forall_forall. intros c Hc. apply filter_In in Hc.
    now apply negb_true_iff.
  - apply sorted_unscored, List.Forall_forall. intros c Hc. now apply filter_In in Hc.
  - intros x y _ Hy. apply filter_In in Hy. now apply F64.ltb_nan_r.
Qed.

(** ** What [find_optimal_location] returns *)

(** The ways in which [find_optimal_location] returns. *)
Lemma find_optimal_returns t k td r res :
  find_optimal_location t k td r = Ok res ->
  (exclusion_filter t r = [] /\ res = []) \/
  (exists cs,
     score_candidates t td (exclusion_filter t r) = Ok cs /\
     res = map suggestion (nlargest k cs) /\
     (nlargest k cs = [] \/ has_column t "population_density" = true)).
Proof.
  unfold find_optimal_location.
  destruct (exclusion_filter t r) as [|a l] eqn:E; [intros [= <-]; now left|].
  destruct (score_candidates t td (a :: l)) as [cs|e]; [|discriminate].
  destruct (nlargest k cs) as [|c top] eqn:En.
  - intros [= <-]. right. exists cs. rewrite En. auto.
  - destruct (has_column t "population_density"); [|discriminate].
    intros [= <-]. right. exists cs. rewrite En. auto.
Qed.

Lemma In_firstn {A} n (l : list A) x : In x (firstn n l) -> In x l.
Proof.
  revert l. induction n as [|n IH]; intros [|y l]; cbn [firstn In]; try tauto.
  intros [->|H]; [now left | right; now apply IH].
Qed.

Lemma nlargest_In k cs c : In c (nlargest k cs) -> In c cs.
Proof.
  rewrite nlargest_ranked. intros H. apply In_firstn in H.
  now apply (Permutation_in _ (ranked_perm cs)).
Qed.

(** The candidates that survive an exclusion in force. *)
Lemma exclusion_filter_far t r a :
  businesses t <> [] -> (0 <? r) = true -> In a (exclusion_filter t r) ->
  forall g, In g (businesses t) ->
    (r <=? cdist_euclidean (sa_coords a) (biz_coords g)) = true.
Proof.
  intros Hb Hr Ha. rewrite exclusion_filter_active in Ha by assumption.
  now apply exclusion_loop in Ha.
Qed.

(** X10.  What [find_optimal_location] returns holds at most
    [num_locations] suggestions, each of them the code, place, postcode,
    suburb, population and density of an area of the table that survived the
    exclusion: when there is a business and the radius is positive, an area
    at a distance of at least the radius from every business. *)
Theorem suggestions_are_candidates (t : MarketResearchTool) (num_locations : Z)
  (target_demographics : option (gmap string string))
  (min_distance_from_existing : float) (res : list Suggestion) :
  find_optimal_location t num_locations target_demographics
    min_distance_from_existing = Ok res ->
  (length res <= Z.to_nat num_locations)%nat /\
  forall s, In s res ->
    exists a,
      In a (sa_data t) /\ In a (exclusion_filter t min_distance_from_existing) /\
      r_SA1 s = SA1 a /\ r_latitude s = latitude a /\
      r_longitude s = longitude a /\ r_postcode s = postcode a /\
      r_suburb s = suburb a /\ r_population s = total_population a /\
      r_population_density s = cell "population_density" a /\
      (businesses t <> [] -> (0 <? min_distance_from_existing) = true ->
       forall g, In g (businesses t) ->
         (min_distance_from_existing <=?
          cdist_euclidean (sa_coords a) (biz_coords g)) = true).
Proof.
  intros H. apply find_optimal_returns in H.
  destruct H as [[_ ->]|(cs & Hcs & -> & _)]; [split; [cbn; lia | intros s []]|].
  split.
  - rewrite length_map, nlargest_ranked. apply firstn_le_length.
  - intros s Hs. apply in_map_iff in Hs. destruct Hs as (c & <- & Hc).
    apply nlargest_In in Hc.
    rewrite (score_candidates_rows _ _ _ _ Hcs) in Hc.
    apply with_score_In in Hc. destruct Hc as (a & Ha & ->).
    exists a. split; [now apply exclusion_filter_subset in Ha|].
    split; [exact Ha|]. repeat (split; [reflexivity|]).
    intros Hb Hr. now apply exclusion_filter_far.
Qed.

Lemma suggestions_are_candidates_witness :
  exists res,
    find_optimal_location census_tool 2 age_25_54 0.15 = Ok res /\
    map r_SA1 res = ["S2"; "S3"]%string /\
    (length res <= 2)%nat.
Proof.
  destruct (find_optimal_location census_tool 2 age_25_54 0.15) as [res|e] eqn:H;
    [|vm_compute in H; discriminate].
  exists res. split; [reflexivity|].
  split; [|exact (proj1 (suggestions_are_candidates _ _ _ _ _ H))].
  vm_compute in H. injection H as <-. reflexivity.
Defined.

(** X11.  The suggestions are the best-scored candidates: the scored
    candidates split into the ones suggested, in the order of the result,
    and the rest, and in that whole sequence no candidate has a strictly
    higher score than one before it, so that the result is in order of
    non-increasing score and no candidate left out beats a suggestion. *)
Theorem suggestions_are_the_best (t : MarketResearchTool) (num_locations : Z)
  (target_demographics : option (gmap string string))
  (min_distance_from_existing : float) (res : list Suggestion) :
  find_optimal_location t num_locations target_demographics
    min_distance_from_existing = Ok res ->
  exclusion_filter t min_distance_from_existing <> [] ->
  exists cs top rest,
    score_candidates t target_demographics
      (exclusion_filter t min_distance_from_existing) = Ok cs /\
    Permutation cs (top ++ rest) /\
    res = map suggestion top /\
    map r_score res = map score top /\
    StronglySorted not_below (top ++ rest).
Proof.
  intros H Hne. apply find_optimal_returns in H.
  destruct H as [[E _]|(cs & Hcs & -> & _)]; [contradiction|].
  exists cs, (nlargest num_locations cs),
    (skipn (Z.to_nat num_locations) (ranked cs)).
  rewrite nlargest_ranked, firstn_skipn.
  split; [exact Hcs|]. split; [symmetry; apply ranked_perm|].
  split; [reflexivity|]. split; [now rewrite map_map | apply ranked_sorted].
Qed.

Lemma suggestions_are_the_best_witness :
  exists res cs top rest,
    find_optimal_location census_tool 2 age_25_54 0 = Ok res /\
    exclusion_filter census_tool 0 <> [] /\
    score_candidates census_tool age_25_54 (exclusion_filter census_tool 0) = Ok cs /\
    Permutation cs (top ++ rest) /\
    res = map suggestion top /\
    StronglySorted not_below (top ++ rest).
Proof.
  destruct (find_optimal_location census_tool 2 age_25_54 0) as [res|e] eqn:H;
    [|vm_compute in H; discriminate].
  assert (Hne : exclusion_filter census_tool 0 <> []) by (vm_compute; discriminate).
  destruct (suggestions_are_the_best _ _ _ _ _ H Hne)
    as (cs & top & rest & Hcs & Hp & Hr & _ & Hs).
  exists res, cs, top, rest.
  split; [reflexivity|]. split; [exact Hne|]. split; [exact Hcs|].
  split; [exact Hp|]. split; [exact Hr | exact Hs].
Defined.




Lemma nil_of_no_element {A} (l : list A) : (forall x, ~ In x l) -> l = [].
Proof. destruct l as [|x l]; [reflexivity|]. intros H. destruct (H x). now left. Qed.

(** X13.  [find_optimal_location] returns the empty list, and no error,
    when the area table is empty, and, provided the scoring goes through,
    when the number of locations asked for is zero or negative. *)
Theorem nothing_to_suggest (t : MarketResearchTool) (num_locations : Z)
  (target_demographics : option (gmap string string))
  (min_distance_from_existing : float) :
  (sa_data t = [] ->
   find_optimal_location t num_locations target_demographics
     min_distance_from_existing = Ok []) /\
  ((num_locations <= 0)%Z ->
   forall cs,
     score_candidates t target_demographics
       (exclusion_filter t min_distance_from_existing) = Ok cs ->
     find_optimal_location t num_locations target_demographics
       min_distance_from_existing = Ok []).
Proof.
  split.
  - intros E. unfold find_optimal_location.
    rewrite (nil_of_no_element (exclusion_filter t min_distance_from_existing));
      [reflexivity|].
    intros a Ha. apply exclusion_filter_subset in Ha. now rewrite E in Ha.
  - intros Hk cs Hcs. unfold find_optimal_location.
    destruct (exclusion_filter t min_distance_from_existing) as [|a l];
      [reflexivity|].
    rewrite Hcs, nlargest_ranked.
    replace (Z.to_nat num_locations) with 0%nat by lia. reflexivity.
Qed.

(** ** Summaries *)

(** X14.  The summary reads the filters [min_income] and [max_income]
    only: the documented filters [min_age] and [max_age] change nothing,
    whatever their values, and an empty dictionary is no filter at all. *)
Theorem age_filters_do_nothing (t : MarketResearchTool)
  (business_name : option string) (filters : gmap string float)
  (min_age max_age : float) :
  get_catchment_summary t business_name
    (Some (<["min_age"%string := min_age]>
             (<["max_age"%string := max_age]> filters))) =
    get_catchment_summary t business_name (Some filters) /\
  get_catchment_summary t business_name (Some ∅) =
    get_catchment_summary t business_name None.
Proof.
  split; [|reflexivity].
  unfold get_catchment_summary, apply_filters, dict_or_empty.
  now rewrite !lookup_insert_ne by discriminate.
Qed.

Lemma filter_filter {A} (p q : A -> bool) (l : list A) :
  List.filter q (List.filter p l) = List.filter (fun x => p x && q x) l.
Proof.
  induction l as [|x l IH]; [reflexivity|]. cbn [List.filter].
  destruct (p x); cbn [List.filter andb]; [|exact IH].
  destruct (q x); now rewrite IH.
Qed.

Lemma apply_filters_passes f rows :
  apply_filters f rows = List.filter (passes f) rows.
Proof.
  unfold apply_filters, passes.
  destruct (dict_or_empty f !! "min_income"%string) as [v|],
    (dict_or_empty f !! "max_income"%string) as [w|].
  - apply filter_filter.
  - apply filter_ext. intros a. now rewrite andb_true_r.
  - reflexivity.
  - symmetry. apply filter_all. reflexivity.
Qed.

Lemma select_catchment_subset t bn a :
  In a (select_catchment t bn) -> In a (sa_data t).
Proof.
  unfold select_catchment. destruct bn as [n|]; [|auto].
  destruct (String.eqb n ""); [auto|]. rewrite filter_In. tauto.
Qed.

Lemma filter_filter_length {A} (p q : A -> bool) (l : list A) :
  (length (List.filter q (List.filter p l)) <= length (List.filter q l))%nat.
Proof.
  induction l as [|x l IH]; [reflexivity|]. cbn [List.filter].
  destruct (p x); cbn [List.filter]; destruct (q x); cbn [length]; lia.
Qed.

(** X15.  Filters and a business name only narrow a summary: the number
    of areas counted with filters is at most the number counted without,
    the number counted for a business is at most the number counted for
    all, and none exceeds the size of the table. *)
Theorem summary_counts_shrink (t : MarketResearchTool)
  (business_name : option string)
  (demographic_filters : option (gmap string float)) :
  (s_num_areas (get_catchment_summary t business_name demographic_filters) <=
   s_num_areas (get_catchment_summary t business_name None))%nat /\
  (s_num_areas (get_catchment_summary t business_name demographic_filters) <=
   s_num_areas (get_catchment_summary t None demographic_filters))%nat /\
  (s_num_areas (get_catchment_summary t business_name demographic_filters) <=
   length (sa_data t))%nat.
Proof.
  unfold get_catchment_summary, summarize. cbn [s_num_areas].
  rewrite !apply_filters_passes.
  assert (H1 : (length (List.filter (passes demographic_filters)
                          (select_catchment t business_name)) <=
                length (select_catchment t business_name))%nat)
    by apply List.filter_length_le.
  assert (H2 : (length (List.filter (passes demographic_filters)
                          (select_catchment t business_name)) <=
                length (List.filter (passes demographic_filters) (sa_data t)))%nat).
  { unfold select_catchment. destruct business_name as [n|]; [|reflexivity].
    destruct (String.eqb n ""); [reflexivity | apply filter_filter_length]. }
  assert (H3 : (length (List.filter (passes demographic_filters) (sa_data t)) <=
                length (sa_data t))%nat) by apply List.filter_length_le.
  split; [|split; [exact H2 | lia]].
  replace (List.filter (passes None) (select_catchment t business_name))
    with (select_catchment t business_name); [exact H1|].
  symmetry. apply filter_all. reflexivity.
Qed.

Lemma series_max_In xs :
  dropna xs <> [] -> In (series_max xs) (dropna xs).
Proof.
  unfold series_max, reduce. destruct (dropna xs) as [|x0 r] eqn:E; [contradiction|].
  intros _. apply fold_fmax.
  intros y Hy. rewrite <- E in Hy. now apply dropna_In in Hy.
Qed.

(** X16.  In every state reached by mutations, the [max_distance] of a
    summary is the stored distance of one of the areas summarized, and the
    stored distance of each of them is below or equal to it. *)
Theorem max_distance_is_the_largest (columns : list string) (df : list Area)
  (ms : list mutation) (business_name : option string)
  (demographic_filters : option (gmap string float)) (a : Area) :
  let t := run (init columns df) ms in
  let rows := apply_filters demographic_filters (select_catchment t business_name) in
  In a rows ->
  (distance_to_business a <=?
   s_max_distance (get_catchment_summary t business_name demographic_filters)) = true /\
  exists a', In a' rows /\
    s_max_distance (get_catchment_summary t business_name demographic_filters) =
      distance_to_business a'.
Proof.
  intros t rows Ha.
  assert (Hnum : forall x, In x rows -> is_nan (distance_to_business x) = false).
  { intros x Hx. unfold rows in Hx. rewrite apply_filters_passes in Hx.
    apply filter_In in Hx. destruct Hx as [Hx _].
    apply select_catchment_subset in Hx.
    apply F64.nonnegative_number, (consistent_nonnegative t); [|exact Hx].
    apply run_consistent, init_consistent. }
  unfold get_catchment_summary, summarize. cbn [s_max_distance]. fold rows.
  split.
  - apply series_max_ge; [now apply in_map | now apply Hnum].
  - assert (Hd : dropna (map distance_to_business rows) <> []).
    { intros E.
      assert (Hin : In (distance_to_business a) (dropna (map distance_to_business rows))).
      { apply dropna_In. split; [now apply in_map | now apply Hnum]. }
      now rewrite E in Hin. }
    apply series_max_In, dropna_In in Hd. destruct Hd as [Hd _].
    apply in_map_iff in Hd. destruct Hd as (a' & E & Ha').
    exists a'. auto.
Qed.

Lemma max_distance_is_the_largest_witness :
  In scenario_row (apply_filters None (select_catchment scenario_tool None)) /\
  (distance_to_business scenario_row <=?
   s_max_distance (get_catchment_summary scenario_tool None None)) = true.
Proof.
  assert (H : In scenario_row (apply_filters None (select_catchment scenario_tool None)))
    by (vm_compute; right; left; reflexivity).
  split; [exact H|].
  exact (proj1 (max_distance_is_the_largest [] _ _ None None scenario_row H)).
Defined.

(** ** The catchment map *)

Lemma dict_set_keys k v d :
  map fst (dict_set k v d) =
  if existsb (String.eqb k) (map fst d) then map fst d else map fst d ++ [k].
Proof.
  induction d as [|[k' v'] d IH]; [reflexivity|]. cbn [dict_set map fst existsb].
  rewrite (String.eqb_sym k k').
  destruct (String.eqb k' k); cbn [orb map fst]; [reflexivity|].
  rewrite IH. now destruct (existsb (String.eqb k) (map fst d)).
Qed.

Lemma dict_set_values k v d x :
  In x (map snd (dict_set k v d)) -> x = v \/ In x (map snd d).
Proof.
  induction d as [|[k' v'] d IH]; cbn [dict_set map snd In];
    [intuition congruence|].
  destruct (String.eqb k' k); cbn [map snd In]; intuition congruence.
Qed.

(** A dictionary built from pairs has at most as many keys as there are
    pairs, each the key of a pair, and each value the value of a pair. *)
Lemma dict_fold pairs d :
  let d' := fold_left (fun d kv => dict_set (fst kv) (snd kv) d) pairs d in
  (length d' <= length d + length pairs)%nat /\
  (forall k, In k (map fst d') -> In k (map fst d) \/ In k (map fst pairs)) /\
  (forall v, In v (map snd d') -> In v (map snd d) \/ In v (map snd pairs)).
Proof.
  revert d. induction pairs as [|[k v] pairs IH]; intros d; cbn [fold_left].
  - cbn. split; [lia|]. split; auto.
  - destruct (IH (dict_set k v d)) as (Hl & Hk & Hv). cbn zeta. cbn [fst snd].
    assert (Hlen : (length (dict_set k v d) <= S (length d))%nat).
    { rewrite <- (length_map fst), dict_set_keys.
      destruct (existsb (String.eqb k) (map fst d)).
      - rewrite length_map. lia.
      - rewrite length_app, length_map. cbn. lia. }
    split; [cbn [length]; lia|]. split.
    + intros k0 H0. destruct (Hk k0 H0) as [H1|H1]; [|right; now right].
      rewrite dict_set_keys in H1.
      destruct (existsb (String.eqb k) (map fst d)); [now left|].
      apply in_app_or in H1. destruct H1 as [H1|[<-|[]]]; [now left|].
      right. now left.
    + intros v0 H0. destruct (Hv v0 H0) as [H1|H1]; [|right; now right].
      apply dict_set_values in H1. destruct H1 as [->|H1]; [|now left].
      right. now left.
Qed.

Lemma combine_fst_firstn {A B} (l : list A) (l' : list B) x :
  In x (map fst (combine l l')) -> In x (firstn (length l') l).
Proof.
  revert l'. induction l as [|a l IH]; intros [|b l'];
    cbn [combine map fst firstn length In]; try tauto.
  intros [->|H]; [now left | right; now apply IH].
Qed.

Lemma firstn_firstn_In {A} n m (l : list A) x :
  (n <= m)%nat -> In x (firstn n l) -> In x (firstn m l).
Proof.
  revert m l. induction n as [|n IH]; intros m l Hnm; [intros []|].
  destruct m as [|m]; [lia|]. destruct l as [|a l]; [intros []|].
  cbn [firstn In]. intros [->|H]; [now left | right].
  apply (IH m); [lia | exact H].
Qed.

Lemma color_map_spec t :
  (length (color_map t) <= 9)%nat /\
  (length (color_map t) <= length (businesses t))%nat /\
  forall kv, In kv (color_map t) ->
    In (fst kv) (map name (firstn 9 (businesses t))) /\ In (snd kv) Set1.
Proof.
  unfold color_map, dict.
  set (names := map name (businesses t)).
  set (colors := firstn (length names) Set1).
  destruct (dict_fold (combine names colors) []) as (Hl & Hk & Hv).
  cbn zeta in *. cbn [length map] in *.
  assert (Hc : (length colors <= 9)%nat).
  { unfold colors. pose proof (length_firstn (length names) Set1) as H.
    change (length Set1) with 9%nat in H. lia. }
  assert (Hc' : (length colors <= length names)%nat).
  { unfold colors. rewrite length_firstn. lia. }
  assert (Hn : length names = length (businesses t)) by apply length_map.
  rewrite length_combine in Hl.
  split; [lia|]. split; [lia|].
  intros [k v] Hkv. cbn [fst snd]. split.
  - destruct (Hk k (in_map fst _ _ Hkv)) as [[]|H].
    apply combine_fst_firstn in H.
    apply (firstn_firstn_In _ 9) in H; [|exact Hc].
    unfold names in H. now rewrite firstn_map in H.
  - destruct (Hv v (in_map snd _ _ Hkv)) as [[]|H].
    apply in_map_iff in H. destruct H as ([k' v'] & <- & H).
    apply in_combine_r in H. unfold colors in H. now apply In_firstn in H.
Qed.

Lemma flat_map_length_le {A B} (f : A -> list B) (l : list A) :
  (forall x, (length (f x) <= 1)%nat) -> (length (flat_map f l) <= length l)%nat.
Proof.
  intros H. induction l as [|x l IH]; [reflexivity|]. cbn [flat_map].
  rewrite length_app. specialize (H x). cbn [length]. lia.
Qed.

(** The catchment traces: at most one for each key of the colour map. *)
Lemma catchment_traces_spec t :
  (length (catchment_traces t) <= length (color_map t))%nat /\
  forall tr, In tr (catchment_traces t) ->
    exists n color,
      In (n, color) (color_map t) /\
      List.filter (assigned_to n) (sa_data t) <> [] /\
      tr = catchment_trace (List.filter (assigned_to n) (sa_data t)) n color.
Proof.
  unfold catchment_traces. split.
  - apply flat_map_length_le. intros [k v]. cbn [fst snd].
    destruct (List.filter (assigned_to k) (sa_data t)); cbn; lia.
  - intros tr Htr. apply in_flat_map in Htr. destruct Htr as ([k v] & Hkv & Htr).
    cbn [fst snd] in Htr.
    destruct (List.filter (assigned_to k) (sa_data t)) as [|a rows] eqn:E;
      [destruct Htr|].
    destruct Htr as [<-|[]]. exists k, v. rewrite E. now repeat split.
Qed.

(** X17.  [visualize_catchments] returns no figure exactly when there is
    no business.  The figure it returns ends with the trace of the business
    locations, which lists every business in Registry order, after one
    catchment trace for each drawn name; there are at most nine catchment
    traces, the palette having nine colours, each for the name of one of the
    first nine businesses, holding exactly the areas assigned to that name,
    of which there is at least one. *)
Theorem catchment_map (t : MarketResearchTool) :
  (visualize_catchments t = None <-> businesses t = []) /\
  forall fig, visualize_catchments t = Some fig ->
    data fig = catchment_traces t ++ [business_trace t] /\
    tr_text (business_trace t) = map name (businesses t) /\
    tr_lat (business_trace t) = map lat (businesses t) /\
    tr_lon (business_trace t) = map lon (businesses t) /\
    (length (catchment_traces t) <= 9)%nat /\
    (length (catchment_traces t) <= length (businesses t))%nat /\
    forall tr, In tr (catchment_traces t) ->
      exists n color,
        In n (map name (firstn 9 (businesses t))) /\ In color Set1 /\
        List.filter (assigned_to n) (sa_data t) <> [] /\
        tr = catchment_trace (List.filter (assigned_to n) (sa_data t)) n color.
Proof.
  unfold visualize_catchments. split.
  - destruct (businesses t); split; intros H; try discriminate; reflexivity.
  - intros fig H. destruct (businesses t) as [|b bs] eqn:Eb; [discriminate|].
    injection H as <-. cbn [data]. rewrite <- Eb.
    destruct (color_map_spec t) as (H9 & Hb & Hkv).
    destruct (catchment_traces_spec t) as (Hl & Htr).
    repeat (split; [reflexivity || lia|]).
    intros tr Hin. destruct (Htr tr Hin) as (n & color & Hmap & Hne & ->).
    exists n, color. destruct (Hkv _ Hmap) as [Hn Hc]. auto.
Qed.

Lemma append_length s s' :
  String.length (String.append s s') = (String.length s + String.length s')%nat.
Proof.
  induction s as [|c s IH]; [reflexivity|].
  simpl. now rewrite IH.
Qed.

Lemma append_inj_r s n n' : String.append n s = String.append n' s -> n = n'.
Proof.
  intros H.
  assert (Hl : String.length n = String.length n').
  { apply (f_equal String.length) in H. rewrite !append_length in H. lia. }
  revert n' H Hl. induction n as [|c n IH]; intros [|c' n'] H Hl;
    try discriminate; [reflexivity|].
  simpl in H, Hl. injection H as -> H.
  f_equal. apply IH; [exact H | lia].
Qed.

(** X18.  An area assigned to a business whose name is not among those of
    the first nine businesses of the Registry is missing from the map: no
    catchment trace bears that name, and none holds the area. *)
Theorem beyond_the_ninth_business (t : MarketResearchTool) (a : Area) (n : string) :
  In a (sa_data t) -> assigned_business a = Some n ->
  ~ In n (map name (firstn 9 (businesses t))) ->
  forall tr, In tr (catchment_traces t) ->
    tr_name tr <> (n ++ " Catchment")%string /\
    exists n' color,
      tr = catchment_trace (List.filter (assigned_to n') (sa_data t)) n' color /\
      ~ In a (List.filter (assigned_to n') (sa_data t)).
Proof.
  intros Ha Hn Hout tr Htr.
  destruct (catchment_traces_spec t) as (_ & Hspec).
  destruct (Hspec tr Htr) as (n' & color & Hmap & _ & ->).
  destruct (color_map_spec t) as (_ & _ & Hkv).
  destruct (Hkv _ Hmap) as [Hn' _]. cbn [fst] in Hn'.
  assert (Hne : n' <> n) by (intros ->; contradiction).
  split.
  - cbn [catchment_trace tr_name]. intros E. now apply append_inj_r in E.
  - exists n', color. split; [reflexivity|]. intros Hin.
    apply filter_In in Hin. destruct Hin as [_ Hin]. unfold assigned_to in Hin.
    rewrite Hn in Hin. apply String.eqb_eq in Hin. now symmetry in Hin.
Qed.

(** ** The bulk import *)

Section BulkImportFacts.

Variable strip : string -> string.
Variable split : string -> string -> list string.
Variable py_float : string -> outcome float.

(** One line: the state moves by the addition that the line asks for, if
    any; one of the two counters goes up by one, and the success counter
    only on a line that asks for an addition. *)
Lemma import_line_spec t s e line :
  let '(t', s', e') := import_line strip split py_float (t, s, e) line in
  t' = match parsed_line strip split py_float line with
       | Some entry => apply_mutation t (add_entry entry)
       | None => t
       end /\
  (s' + e' = S (s + e))%nat /\
  (s <= s')%nat /\
  (s' <= s + length (parsed_lines strip split py_float [line]))%nat.
Proof.
  unfold import_line, parsed_lines, parsed_line. cbn [omap list_omap].
  destruct (map strip (split line ",")) as [|n [|la [|lo [|x l]]]];
    try (cbn; repeat split; lia).
  destruct (py_float la) as [new_lat|]; [|cbn; repeat split; lia].
  destruct (py_float lo) as [new_lon|]; [|cbn; repeat split; lia].
  cbn [add_entry apply_mutation fst snd length].
  destruct (snd (add_business t n new_lat new_lon)); repeat split; lia.
Qed.

Lemma import_lines_spec lines t s e :
  let '(t', s', e') := fold_left (import_line strip split py_float) lines (t, s, e) in
  t' = run t (map add_entry (parsed_lines strip split py_float lines)) /\
  (s' + e' = s + e + length lines)%nat /\
  (s <= s')%nat /\
  (s' <= s + length (parsed_lines strip split py_float lines))%nat.
Proof.
  revert t s e. induction lines as [|line lines IH]; intros t s e.
  - cbn. repeat split; lia.
  - cbn [fold_left].
    pose proof (import_line_spec t s e line) as H1.
    destruct (import_line strip split py_float (t, s, e) line) as [[t1 s1] e1].
    destruct H1 as (Ht1 & Hc1 & Hs1 & Hp1).
    specialize (IH t1 s1 e1).
    destruct (fold_left (import_line strip split py_float) lines (t1, s1, e1)) as [[t' s'] e'].
    destruct IH as (Ht' & Hc' & Hs' & Hp').
    unfold parsed_lines in *. cbn [omap list_omap] in *.
    destruct (parsed_line strip split py_float line) as [entry|];
      cbn [map length app] in *.
    + split; [|repeat split; lia]. rewrite Ht', Ht1. reflexivity.
    + split; [|repeat split; lia]. rewrite Ht', Ht1. reflexivity.
Qed.

End BulkImportFacts.

Lemma run_adds_registry t entries :
  registry (run t (map add_entry entries)) = registry t ++ entries.
Proof.
  unfold run. revert t. induction entries as [|[[n la] lo] entries IH]; intros t.
  - cbn. now rewrite app_nil_r.
  - cbn [map fold_left add_entry apply_mutation fst snd].
    rewrite IH, add_business_registry, <- app_assoc. reflexivity.
Qed.

(** X19.  The bulk import is a run of [add_business] over the lines that
    have three parts of which the last two are numbers, in their order: its
    state is the one these additions leave, and the Registry grows by
    exactly these entries, whatever the name, the empty one included, and
    whatever the coordinates, those on which [add_business] raised
    included.  A blank input changes nothing and shows an error. *)
Theorem bulk_import_is_a_run (strip : string -> string)
  (split : string -> string -> list string) (py_float : string -> outcome float)
  (t : MarketResearchTool) (bulk_input : string) :
  let lines := split (strip bulk_input) newline in
  let entries := parsed_lines strip split py_float lines in
  (strip bulk_input = ""%string ->
   import_locations strip split py_float t bulk_input =
     (t, [st_error "Please paste location data"])) /\
  (strip bulk_input <> ""%string ->
   fst (import_locations strip split py_float t bulk_input) =
     run t (map add_entry entries) /\
   registry (fst (import_locations strip split py_float t bulk_input)) =
     registry t ++ entries).
Proof.
  intros lines entries. unfold import_locations.
  destruct (String.eqb_spec (strip bulk_input) ""); split; try contradiction;
    try reflexivity; intros _.
  fold lines.
  pose proof (import_lines_spec strip split py_float lines t 0 0) as H.
  destruct (fold_left (import_line strip split py_float) lines (t, 0%nat, 0%nat))
    as [[t' s'] e'].
  destruct H as (-> & _). cbn [fst]. fold entries.
  split; [reflexivity | apply run_adds_registry].
Qed.

Lemma beyond_the_ninth_business_witness :
  In ten_row (sa_data ten_tool) /\
  assigned_business ten_row = Some "B9"%string /\
  ~ In "B9"%string (map name (firstn 9 (businesses ten_tool))) /\
  catchment_traces ten_tool = [] /\
  forall tr, In tr (catchment_traces ten_tool) ->
    tr_name tr <> ("B9" ++ " Catchment")%string.
Proof.
  assert (Ha : In ten_row (sa_data ten_tool)) by (vm_compute; left; reflexivity).
  assert (Hn : assigned_business ten_row = Some "B9"%string) by reflexivity.
  assert (Hout : ~ In "B9"%string (map name (firstn 9 (businesses ten_tool)))).
  { vm_compute. intuition discriminate. }
  split; [exact Ha|]. split; [exact Hn|]. split; [exact Hout|].
  split; [vm_compute; reflexivity|].
  intros tr Htr.
  exact (proj1 (beyond_the_ninth_business ten_tool ten_row "B9" Ha Hn Hout tr Htr)).
Defined.

(** X20.  After a bulk import of a text that is not blank, the two counters
    add up to the number of lines, and the success counter is at most the
    number of businesses added: a line of three parts with two numbers on
    which [add_business] raises is counted as failed although its business
    is in the Registry.  A success is shown if a line was counted as
    imported, and a warning if a line was counted as failed. *)
Theorem bulk_import_counts (strip : string -> string)
  (split : string -> string -> list string) (py_float : string -> outcome float)
  (t : MarketResearchTool) (bulk_input : string) :
  strip bulk_input <> ""%string ->
  let lines := split (strip bulk_input) newline in
  let entries := parsed_lines strip split py_float lines in
  let done := import_locations strip split py_float t bulk_input in
  exists success_count error_count,
    (success_count + error_count = length lines)%nat /\
    (success_count <= length entries)%nat /\
    length (registry (fst done)) = (length (registry t) + length entries)%nat /\
    snd done =
      (if (0 <? success_count)%nat
       then [st_success ("Imported " ++ show_count success_count ++ " location(s)!")]
       else []) ++
      (if (0 <? error_count)%nat
       then [st_warning ("Failed to import " ++ show_count error_count ++
                         " line(s). Check format.")]
       else []).
Proof.
  intros Hne lines entries done. unfold done, import_locations.
  destruct (String.eqb_spec (strip bulk_input) ""); [contradiction|].
  fold lines.
  pose proof (import_lines_spec strip split py_float lines t 0 0) as H.
  destruct (fold_left (import_line strip split py_float) lines (t, 0%nat, 0%nat))
    as [[t' s'] e'].
  destruct H as (-> & Hc & _ & Hp). fold entries in Hp |- *.
  exists s', e'. cbn [fst snd].
  split; [lia|]. split; [lia|]. split; [|reflexivity].
  rewrite run_adds_registry, length_app. reflexivity.
Qed.

Lemma bulk_import_counts_witness :
  let t := init [] [area_at "A1" (-37.8) 145.0] in
  sample_strip pasted <> ""%string /\
  length (sample_split (sample_strip pasted) newline) = 3%nat /\
  registry (fst (import_locations sample_strip sample_split sample_float t pasted)) =
    [("F1"%string, -37.8, 145.0); ("N"%string, nan, nan)] /\
  snd (import_locations sample_strip sample_split sample_float t pasted) =
    [st_success "Imported 1 location(s)!";
     st_warning "Failed to import 2 line(s). Check format."] /\
  exists success_count error_count,
    (success_count + error_count =
     length (sample_split (sample_strip pasted) newline))%nat /\
    (success_count <=
     length (parsed_lines sample_strip sample_split sample_float
               (sample_split (sample_strip pasted) newline)))%nat.
Proof.
  cbv zeta.
  assert (Hne : sample_strip pasted <> ""%string) by (vm_compute; discriminate).
  split; [exact Hne|]. split; [vm_compute; reflexivity|].
  split; [vm_compute; reflexivity|]. split; [vm_compute; reflexivity|].
  destruct (bulk_import_counts sample_strip sample_split sample_float
              (init [] [area_at "A1" (-37.8) 145.0]) pasted Hne)
    as (s & e & Hc & Hp & _).
  exists s, e. split; [exact Hc | exact Hp].
Defined.

(** ** What [add_business] returns and what [remove_business] leaves *)

(** X21.  The business that [add_business] returns bears the name and the
    coordinates given, is the last business of the Registry it leaves, after
    the former ones, and carries its catchment list already: the SA1 codes
    of the areas now assigned to its name. *)
Theorem add_business_returns (t : MarketResearchTool) (n : string) (la lo : float)
  (b : Business) :
  snd (add_business t n la lo) = Ok b ->
  let t' := fst (add_business t n la lo) in
  name b = n /\ lat b = la /\ lon b = lo /\
  catchment b = map SA1 (List.filter (assigned_to n) (sa_data t')) /\
  exists former,
    businesses t' = former ++ [b] /\ map entry former = registry t.
Proof.
  unfold add_business.
  set (t0 := {| extra_columns := extra_columns t; sa_data := sa_data t;
                businesses := businesses t ++
                  [{| name := n; lat := la; lon := lo; catchment := [] |}] |}).
  destruct (snd (_recalculate_catchments t0)) as [[]|e] eqn:Es; [|discriminate].
  cbn [fst snd]. intros [= <-]. cbn zeta.
  repeat (split; [reflexivity|]).
  assert (Hrun : _recalculate_catchments t0 = (fst (_recalculate_catchments t0), Ok tt))
    by (rewrite <- Es; now destruct (_recalculate_catchments t0)).
  rewrite (recalculate_returned _ _ Hrun). unfold t0 at 2. cbn [businesses].
  rewrite map_app. cbn [map].
  exists (map (with_catchment (sa_data (fst (_recalculate_catchments t0))))
            (businesses t)).
  split; [reflexivity | apply with_catchment_entries].
Qed.

Lemma add_business_returns_witness :
  exists b,
    snd (add_business (init [] [area_at "A1" (-37.8) 145.0]) "F1" (-37.8) 145.0) = Ok b /\
    name b = "F1"%string /\ catchment b = ["A1"%string].
Proof.
  destruct (snd (add_business (init [] [area_at "A1" (-37.8) 145.0]) "F1" (-37.8) 145.0))
    as [b|e] eqn:H; [|vm_compute in H; discriminate].
  exists b. split; [reflexivity|].
  destruct (add_business_returns _ _ _ _ _ H) as (Hn & _ & _ & Hc & _).
  split; [exact Hn|]. rewrite Hc. vm_compute. reflexivity.
Defined.

(** X22.  After [remove_business], whether its recomputation returns or
    raises, no area is assigned to the name removed, in whatever state the
    call was made; the summary asked for that name, if it is not empty,
    counts no area. *)
Theorem removed_business_keeps_no_area (t : MarketResearchTool) (n : string) :
  let t' := fst (remove_business t n) in
  (forall a, In a (sa_data t') -> assigned_business a <> Some n) /\
  (n <> ""%string ->
   forall demographic_filters,
     s_num_areas (get_catchment_summary t' (Some n) demographic_filters) = 0%nat).
Proof.
  cbn zeta.
  assert (H : forall a, In a (sa_data (fst (remove_business t n))) ->
                        assigned_business a <> Some n).
  { intros a Ha Hn.
    assert (Hc : consistent (fst (remove_business t n)))
      by apply recalculate_consistent.
    destruct (consistent_assigned _ a n Hc Ha Hn) as (g & Hg & Hname).
    apply (in_map entry) in Hg.
    fold (registry (fst (remove_business t n))) in Hg.
    rewrite remove_business_entries in Hg. apply filter_In in Hg.
    destruct Hg as [_ Hg]. change (fst (fst (entry g))) with (name g) in Hg.
    rewrite Hname, String.eqb_refl in Hg. discriminate. }
  split; [exact H|]. intros Hne f.
  unfold get_catchment_summary, select_catchment.
  destruct (String.eqb_spec n ""); [contradiction|].
  rewrite filter_none; [now rewrite apply_filters_nil|].
  intros a Ha. unfold assigned_to.
  destruct (assigned_business a) as [m|] eqn:Hm; [|reflexivity].
  destruct (String.eqb_spec m n) as [->|]; [|reflexivity].
  now apply H in Hm.
Qed.
